(** * dl4ds: training orchestration (training_logic.py) and conditional GAN
      training (cgan.py)

    A shallow embedding of the two orchestration modules of dl4ds.
    Python integers are [Z], Python floats are binary64 primitive floats,
    strings are [string].  A function that performs side effects (prints,
    Horovod and TensorFlow calls, file writes) is a computation in the
    monad [M]: it yields either a value or the exception that was raised,
    together with the chronological list of the effects it performed. *)

From Stdlib Require Import ZArith List String Ascii Bool Lia Floats DecimalString.
Import ListNotations.

Set Warnings "-inexact-float".

Local Open Scope string_scope.
Local Open Scope list_scope.
Local Open Scope Z_scope.

(* ===================================================================== *)
(** * Python-level primitives *)
(* ===================================================================== *)

Module Py.

(** The exceptions that the modelled code can raise. *)
Inductive exn : Type :=
| ValueError (msg : string)
| ZeroDivisionError
| IndexError
| AttributeError (attr : string)
| UnboundLocalError (name : string).

Inductive result (A : Type) : Type :=
| Ok (a : A)
| Raise (e : exn).
Arguments Ok {A} a.
Arguments Raise {A} e.

(** [a % b] on integers: floored remainder, [ZeroDivisionError] on [b = 0]. *)
Definition py_mod (a b : Z) : result Z :=
  if b =? 0 then Raise ZeroDivisionError else Ok (a mod b).

(** [a // b] on integers: floored quotient, [ZeroDivisionError] on [b = 0]. *)
Definition py_floordiv (a b : Z) : result Z :=
  if b =? 0 then Raise ZeroDivisionError else Ok (a / b).

(** [range(n)] as the list [0, 1, ..., n-1] (empty when [n <= 0]). *)
Definition range (n : Z) : list Z := map Z.of_nat (seq 0 (Z.to_nat n)).

(** [str(n)] / [format(n)] for an integer. *)
Definition str_of_int (n : Z) : string := NilZero.string_of_int (Z.to_int n).

(** [x in l] for a list of strings. *)
Definition str_in (x : string) (l : list string) : bool :=
  existsb (String.eqb x) l.

(** [int(n)] converted to a binary64 float, rounding to nearest even, as the
    mixed product [float * int] does. *)
Definition float_of_int (n : Z) : float :=
  SF2Prim (binary_normalize prec emax n 0 false).

(** [t.startswith(s)]. *)
Fixpoint startswith (s t : string) : bool :=
  match s, t with
  | EmptyString, _ => true
  | String a s', String b t' => Ascii.eqb a b && startswith s' t'
  | String _ _, EmptyString => false
  end.

(** [s in t] for strings: [s] occurs in [t] as a contiguous substring. *)
Fixpoint includes (s t : string) : bool :=
  startswith s t ||
  match t with
  | EmptyString => false
  | String _ t' => includes s t'
  end.

(** [t.endswith(c)] for a single character. *)
Fixpoint ends_with_char (c : ascii) (t : string) : bool :=
  match t with
  | EmptyString => false
  | String a EmptyString => Ascii.eqb a c
  | String _ t' => ends_with_char c t'
  end.

(** [os.path.join(a, b)] for a relative second component. *)
Definition os_path_join (a b : string) : string :=
  match a with
  | EmptyString => b
  | _ => if ends_with_char "/"%char a then (a ++ b)%string
         else (a ++ "/" ++ b)%string
  end.

(** Reading a local variable that may not have been assigned. *)
Definition read_local {A} (name : string) (v : option A) : result A :=
  match v with
  | Some x => Ok x
  | None => Raise (UnboundLocalError name)
  end.

(** [l[i]]: a negative index counts from the end, [IndexError] out of range. *)
Definition getitem {A} (l : list A) (i : Z) : result A :=
  let j := if i <? 0 then i + Z.of_nat (List.length l) else i in
  if j <? 0 then Raise IndexError
  else match nth_error l (Z.to_nat j) with
       | Some x => Ok x
       | None => Raise IndexError
       end.

End Py.
Export Py.

(* ===================================================================== *)
(** * Computations with effects and exceptions *)
(* ===================================================================== *)

(** [M E A]: the outcome and the effects performed, oldest first.  After an
    exception the effects performed so far are kept and nothing more runs. *)
Definition M (E A : Type) : Type := (result A * list E)%type.

Definition ret {E A} (a : A) : M E A := (Ok a, []).

Definition bind {E A B} (m : M E A) (k : A -> M E B) : M E B :=
  match m with
  | (Ok a, t1) => let (r, t2) := k a in (r, t1 ++ t2)
  | (Raise e, t1) => (Raise e, t1)
  end.

Definition raise {E A} (e : exn) : M E A := (Raise e, []).

Definition emit {E} (ev : E) : M E unit := (Ok tt, [ev]).

Definition lift {E A} (r : result A) : M E A := (r, []).

Definition when {E} (b : bool) (m : M E unit) : M E unit :=
  if b then m else ret tt.

Definition outcome {E A} (m : M E A) : result A := fst m.
Definition effects {E A} (m : M E A) : list E := snd m.

Declare Scope py_scope.
Delimit Scope py_scope with py.
Notation "x <- m ;; k" := (bind m (fun x => k))
  (at level 61, m at next level, right associativity) : py_scope.
Notation "m ;; k" := (bind m (fun _ => k))
  (at level 61, right associativity) : py_scope.
Local Open Scope py_scope.

(** Every exception that the computation can raise satisfies [Q]. *)
Definition raises_only {E A} (Q : exn -> Prop) (m : M E A) : Prop :=
  forall err, outcome m = Raise err -> Q err.

(** A [for] loop over a list with a loop-carried value. *)
Fixpoint for_each {E A S} (l : list A) (body : A -> S -> M E S) (s : S) : M E S :=
  match l with
  | [] => ret s
  | a :: l' => s' <- body a s ;; for_each l' body s'
  end.

(* ===================================================================== *)
(** * training_logic.py *)
(* ===================================================================== *)

Module TrainingLogic.

(** What Horovod and the device utilities report to the running process:
    [hvd.size()], [hvd.rank()], [hvd.local_rank()] and the lists returned by
    [list_devices('physical', gpu=True)] and [list_devices('physical',
    gpu=False)]. *)
Record env : Type := {
  hvd_size : positive;
  hvd_rank : Z;
  hvd_local_rank : Z;
  gpu_devices : list string;
  cpu_devices : list string
}.

(** The parts of [dl4ds.utils] and of the network modules that
    training_logic.py imports and whose text is not among the sources: the
    constant [MODELS], the message raised by [checkarg_model], and the type of
    the keyword arguments forwarded to the network constructors. *)
Class Utils : Type := {
  MODELS : list string;
  checkarg_model_msg : string -> list string -> string;
  ArchParams : Type
}.

(** Modelled from the spec: [utils.checkarg_model] is called by
    [Trainer.__init__] but its body is not among the sources.  Following
    section 4.4 (selection by name, an unrecognized name is a configuration
    error) it returns the name when it belongs to the list and raises
    otherwise. *)
Definition checkarg_model {U : Utils} (model : string) (model_list : list string)
  : result string :=
  if str_in model model_list then Ok model
  else Raise (ValueError (checkarg_model_msg model model_list)).

(** The taxonomy of the specification: its ConfigurationError is the class of
    errors that the code raises as [ValueError]. *)
Definition is_ConfigurationError (e : exn) : bool :=
  match e with
  | ValueError _ => true
  | _ => false
  end.

Inductive loss_fn : Type :=
| MeanAbsoluteError
| MeanSquaredError
| dssim
| dssim_mae
| dssim_mse
| dssim_mae_mse.

(** A 4D sample array [nsamples, lat, lon, channels], by its shape. *)
Record ndarray4 : Type := {
  nsamples : Z;
  lat : Z;
  lon : Z;
  last_dim : Z
}.

(** A 2D static field, by its shape. *)
Record ndarray2 : Type := {
  rows : Z;
  cols : Z
}.

Record datagen_params : Type := {
  dg_scale : Z;
  dg_batch_size : Z;
  dg_topography : option ndarray2;
  dg_landocean : option ndarray2;
  dg_patch_size : option Z;
  dg_model : string;
  dg_interpolation : string;
  dg_time_window : option Z
}.

Inductive data_generator : Type :=
| DataGenerator (data : ndarray4) (predictors : option (list ndarray4))
                (params : datagen_params).

(** [n_channels]: an integer for the plain networks, a pair for the recurrent
    ones. *)
Inductive channels : Type :=
| Channels (n : Z)
| ChannelsPair (n_var_channels n_st_channels : Z).

Inductive network {U : Utils} : Type :=
| resnet_spc (scale : Z) (n_channels : channels) (p : ArchParams)
| resnet_rc (scale : Z) (n_channels : channels) (p : ArchParams)
| resnet_bi (n_channels : channels) (p : ArchParams)
| recurrent_resnet_spc (scale : Z) (n_channels : channels)
                       (time_window : option Z) (p : ArchParams)
| recurrent_resnet_rc (scale : Z) (n_channels : channels)
                      (time_window : option Z) (p : ArchParams)
| recurrent_resnet_bi (n_channels : channels) (time_window : option Z)
                      (p : ArchParams).

(** The value of [self.model]: the architecture name, replaced in
    [setup_model] by the instantiated network when the name is one of the six
    known ones. *)
Inductive model_obj {U : Utils} : Type :=
| ModelStr (name : string)
| ModelNet (net : network).

(** The [learning_rate] argument. *)
Inductive learning_rate_arg : Type :=
| LrTuple (values : list float)
| LrFloat (r : float)
| LrInt (n : Z).

(** What [Adam] receives as its learning rate. *)
Inductive lr_schedule : Type :=
| PiecewiseConstantDecay (boundaries : list (option float)) (values : list float)
| LrConstFloat (r : float)
| LrConstInt (n : Z).

Inductive optimizer : Type :=
| Adam (learning_rate : lr_schedule)
| DistributedOptimizer (opt : optimizer).

Inductive callback : Type :=
| EarlyStopping (patience : Z) (min_delta : float) (verbose : Z)
| PlotLossesKerasTF
| BroadcastGlobalVariablesCallback (root_rank : Z)
| ModelCheckpoint (filepath : string) (save_weights_only save_best_only : bool).

(** The effects of the trainers, in the order they happen. *)
Inductive event : Type :=
| HvdInit
| PrintLine (s : string)
| SetGpuMemoryGrowth
| SetVisibleGpus (local_rank : Z)
| ListDevices (gpu : bool)
| ModelSummary
| Makedirs (path : string)
| Compile (opt : optimizer) (loss : loss_fn)
| Fit (ds_train : data_generator) (epochs : Z) (steps_per_epoch : option Z)
      (ds_val : data_generator) (validation_steps : option Z) (verbose : Z)
      (callbacks : list callback) (use_multiprocessing : bool)
| Evaluate (ds_test : data_generator) (steps : option Z) (verbose : Z)
| PrintScore
| TimingRuntime
| PlotHistory (path : option string)
| PltShow
| ModelSave (path : string).

(** The attributes that [Trainer.__init__] leaves on [self]. *)
Record Trainer : Type := {
  self_model : string;
  self_batch_size : Z;
  self_loss : string;
  self_device : string;
  self_gpu_memory_growth : bool;
  self_use_multiprocessing : bool;
  self_verbose : Z;
  self_global_batch_size : Z;
  self_running_on_first_worker : bool;
  self_lossf : loss_fn
}.

(** [self.verbose in [1, 2]] ([True] is [1], [False] is [0]). *)
Definition verbose_in_1_2 (verbose : Z) : bool := (verbose =? 1) || (verbose =? 2).

(** Lines 88-101: the choice of the loss function. *)
Definition choose_loss (loss : string) : result loss_fn :=
  if String.eqb loss "mae" then Ok MeanAbsoluteError
  else if String.eqb loss "mse" then Ok MeanSquaredError
  else if String.eqb loss "dssim" then Ok dssim
  else if String.eqb loss "dssim_mae" then Ok dssim_mae
  else if String.eqb loss "dssim_mse" then Ok dssim_mse
  else if String.eqb loss "dssim_mae_mse" then Ok dssim_mae_mse
  else Raise (ValueError "`loss` not recognized").

(** [Trainer.__init__].  The clock started by [Timing()] carries no
    information for the model and is left out. *)
Definition Trainer_init {U : Utils} (e : env)
    (model loss : string) (batch_size : Z) (device : string)
    (gpu_memory_growth use_multiprocessing : bool) (verbose : Z)
    (model_list : option (list string)) : M event Trainer :=
  emit HvdInit ;;
  when (verbose_in_1_2 verbose) (emit (PrintLine "List of devices:")) ;;
  devices <-
    (if String.eqb device "GPU" then
       when gpu_memory_growth (emit SetGpuMemoryGrowth) ;;
       emit (SetVisibleGpus (hvd_local_rank e)) ;;
       emit (ListDevices true) ;;
       ret (gpu_devices e)
     else if String.eqb device "CPU" then
       emit (ListDevices false) ;;
       ret (cpu_devices e)
     else raise (ValueError "device not recognized")) ;;
  let n_devices := Z.of_nat (List.length devices) in
  when (verbose_in_1_2 verbose)
       (emit (PrintLine ("Number of devices: " ++ str_of_int n_devices)%string)) ;;
  let batch_size_per_replica := batch_size in
  let global_batch_size := batch_size_per_replica * n_devices in
  when (verbose_in_1_2 verbose)
       (emit (PrintLine ("Global batch size: " ++ str_of_int global_batch_size
                     ++ ", per replica: "
                     ++ str_of_int batch_size_per_replica)%string)) ;;
  let running_on_first_worker :=
    (String.eqb device "GPU" && (hvd_rank e =? 0)) || String.eqb device "CPU" in
  let model_list := match model_list with
                    | None => MODELS
                    | Some l => l
                    end in
  model' <- lift (checkarg_model model model_list) ;;
  lossf <- lift (choose_loss loss) ;;
  ret {| self_model := model';
         self_batch_size := batch_size;
         self_loss := loss;
         self_device := device;
         self_gpu_memory_growth := gpu_memory_growth;
         self_use_multiprocessing := use_multiprocessing;
         self_verbose := verbose;
         self_global_batch_size := global_batch_size;
         self_running_on_first_worker := running_on_first_worker;
         self_lossf := lossf |}.

(** The arguments of [SupervisedTrainer.__init__], under their names. *)
Record SupervisedTrainer_args {U : Utils} : Type := {
  model : string;
  data_train : ndarray4;
  data_val : ndarray4;
  data_test : ndarray4;
  predictors_train : option (list ndarray4);
  predictors_val : option (list ndarray4);
  predictors_test : option (list ndarray4);
  loss : string;
  batch_size : Z;
  device : string;
  gpu_memory_growth : bool;
  use_multiprocessing : bool;
  model_list : option (list string);
  topography : option ndarray2;
  landocean : option ndarray2;
  scale : Z;
  interpolation : string;
  patch_size : option Z;
  time_window : option Z;
  epochs : Z;
  steps_per_epoch : option Z;
  validation_steps : option Z;
  test_steps : option Z;
  learning_rate : learning_rate_arg;
  lr_decay_after : option float;
  early_stopping : bool;
  patience : Z;
  min_delta : float;
  plot : string;
  show_plot : bool;
  save_plot : bool;
  save : bool;
  save_path : option string;
  savecheckpoint_path : option string;
  verbose : Z;
  architecture_params : ArchParams
}.

Definition recmodels : list string :=
  ["recurrent_resnet_spc"; "recurrent_resnet_rc"; "recurrent_resnet_bi"].

(** [SupervisedTrainer.setup_datagen]. *)
Definition setup_datagen {U : Utils} (self : Trainer) (a : SupervisedTrainer_args)
  : M event (data_generator * data_generator * data_generator) :=
  match patch_size a with
  | None => ret tt
  | Some p =>
      r <- lift (py_mod p (scale a)) ;;
      if negb (r =? 0) then
        raise (ValueError
          "`patch_size` must be divisible by `scale` (remainder must be zero)")
      else ret tt
  end ;;
  match time_window a with
  | Some tw =>
      if negb (str_in (self_model self) recmodels) then
        raise (ValueError ("``time_window=" ++ str_of_int tw
          ++ "``, choose a model that handles samples with a temporal dimension")%string)
      else ret tt
  | None => ret tt
  end ;;
  (if str_in (self_model self) recmodels then
     match time_window a with
     | None =>
         raise (ValueError ("``model=" ++ self_model self
           ++ "``, the argument ``time_window`` must be a postive integer")%string)
     | Some _ => ret tt
     end
   else ret tt) ;;
  let datagen_params :=
    {| dg_scale := scale a;
       dg_batch_size := self_global_batch_size self;
       dg_topography := topography a;
       dg_landocean := landocean a;
       dg_patch_size := patch_size a;
       dg_model := self_model self;
       dg_interpolation := interpolation a;
       dg_time_window := time_window a |} in
  let ds_train := DataGenerator (data_train a) (predictors_train a) datagen_params in
  let ds_val := DataGenerator (data_val a) (predictors_val a) datagen_params in
  let ds_test := DataGenerator (data_test a) (predictors_test a) datagen_params in
  ret (ds_train, ds_val, ds_test).

(** [n + 1] when the optional field is present. *)
Definition incr_if_some {A} (o : option A) (n : Z) : Z :=
  match o with
  | Some _ => n + 1
  | None => n
  end.

(** [n + len(predictors)] when predictors are given. *)
Definition add_len_if_some {A} (o : option (list A)) (n : Z) : Z :=
  match o with
  | Some l => n + Z.of_nat (List.length l)
  | None => n
  end.

(** Lines 311-328: the channel count; the local [n_channels] stays unbound
    when the name is in neither list. *)
Definition count_channels {U : Utils} (self : Trainer) (a : SupervisedTrainer_args)
  : option channels :=
  if str_in (self_model self) ["resnet_spc"; "resnet_bi"; "resnet_rc"] then
    let n_channels := last_dim (data_train a) in
    let n_channels := incr_if_some (topography a) n_channels in
    let n_channels := incr_if_some (landocean a) n_channels in
    let n_channels := add_len_if_some (predictors_train a) n_channels in
    Some (Channels n_channels)
  else if str_in (self_model self) recmodels then
    let n_var_channels := last_dim (data_train a) in
    let n_st_channels := 0 in
    let n_var_channels := add_len_if_some (predictors_train a) n_var_channels in
    let n_st_channels := incr_if_some (topography a) n_st_channels in
    let n_st_channels := incr_if_some (landocean a) n_st_channels in
    Some (ChannelsPair n_var_channels n_st_channels)
  else None.

(** [SupervisedTrainer.setup_model]. *)
Definition setup_model {U : Utils} (self : Trainer) (a : SupervisedTrainer_args)
  : M event model_obj :=
  let n_channels := count_channels self a in
  let name := self_model self in
  m <- lift
    (if String.eqb name "resnet_spc" then
       match read_local "n_channels" n_channels with
       | Ok c => Ok (ModelNet (resnet_spc (scale a) c (architecture_params a)))
       | Raise e => Raise e
       end
     else if String.eqb name "resnet_rc" then
       match read_local "n_channels" n_channels with
       | Ok c => Ok (ModelNet (resnet_rc (scale a) c (architecture_params a)))
       | Raise e => Raise e
       end
     else if String.eqb name "resnet_bi" then
       match read_local "n_channels" n_channels with
       | Ok c => Ok (ModelNet (resnet_bi c (architecture_params a)))
       | Raise e => Raise e
       end
     else if String.eqb name "recurrent_resnet_spc" then
       match read_local "n_channels" n_channels with
       | Ok c => Ok (ModelNet (recurrent_resnet_spc (scale a) c (time_window a)
                                                    (architecture_params a)))
       | Raise e => Raise e
       end
     else if String.eqb name "recurrent_resnet_rc" then
       match read_local "n_channels" n_channels with
       | Ok c => Ok (ModelNet (recurrent_resnet_rc (scale a) c (time_window a)
                                                   (architecture_params a)))
       | Raise e => Raise e
       end
     else if String.eqb name "recurrent_resnet_bi" then
       match read_local "n_channels" n_channels with
       | Ok c => Ok (ModelNet (recurrent_resnet_bi c (time_window a)
                                                   (architecture_params a)))
       | Raise e => Raise e
       end
     else Ok (ModelStr name)) ;;
  (if (self_verbose self =? 1) && self_running_on_first_worker self then
     match m with
     | ModelNet _ => emit ModelSummary
     | ModelStr _ => raise (AttributeError "summary")
     end
   else ret tt) ;;
  ret m.

(** Lines 354-361: the learning rate handed to [Adam]. *)
Definition setup_learning_rate (lr : learning_rate_arg)
    (lr_decay_after : option float) (size : positive) : result lr_schedule :=
  match lr with
  | LrTuple values =>
      match nth_error values 0, nth_error values 1 with
      | Some v0, Some v1 => Ok (PiecewiseConstantDecay [lr_decay_after] [v0; v1])
      | _, _ => Raise IndexError
      end
  | LrFloat r => Ok (LrConstFloat (r * float_of_int (Zpos size))%float)
  | LrInt n => Ok (LrConstInt n)
  end.

(** Lines 437-443: saving the final model.  The local [save_path] is assigned
    only in the branch where [self.save_path] is [None]. *)
Definition run_save_model {U : Utils} (self : Trainer) (a : SupervisedTrainer_args)
    (m : model_obj) : M event unit :=
  if save a then
    let save_path_local : option string :=
      match save_path a with
      | None => Some "./saved_model/"
      | Some _ => None
      end in
    if self_running_on_first_worker self then
      p <- lift (read_local "save_path" save_path_local) ;;
      emit (Makedirs p) ;;
      match m with
      | ModelNet _ => emit (ModelSave p)
      | ModelStr _ => raise (AttributeError "save")
      end
    else ret tt
  else ret tt.

(** The attributes that [run] sets on [self]. *)
Record run_attrs : Type := {
  self_learning_rate : lr_schedule;
  self_optimizer : optimizer;
  self_steps_per_epoch : option Z
}.

(** [SupervisedTrainer.run]. *)
Definition run {U : Utils} (e : env) (self : Trainer) (a : SupervisedTrainer_args)
    (ds : data_generator * data_generator * data_generator) (m : model_obj)
  : M event run_attrs :=
  let '(ds_train, ds_val, ds_test) := ds in
  let first := self_running_on_first_worker self in
  lr <- lift (setup_learning_rate (learning_rate a) (lr_decay_after a) (hvd_size e)) ;;
  let optimizer := Adam lr in
  let callbacks : list callback := [] in
  let callbacks :=
    if early_stopping a
    then callbacks ++ [EarlyStopping (patience a) (min_delta a) (self_verbose self)]
    else callbacks in
  let callbacks :=
    if String.eqb (plot a) "llp" then callbacks ++ [PlotLossesKerasTF]
    else callbacks in
  let optimizer := DistributedOptimizer optimizer in
  let callbacks := callbacks ++ [BroadcastGlobalVariablesCallback 0] in
  let verbose :=
    if (self_verbose self =? 1) && first then 1
    else if (self_verbose self =? 2) && first then 2
    else 0 in
  callbacks <-
    match savecheckpoint_path a with
    | Some p =>
        emit (Makedirs p) ;;
        let model_checkpoint_callback :=
          ModelCheckpoint (os_path_join p "./checkpoint_epoch-{epoch:02d}.h5")
                          false true in
        ret (if first then callbacks ++ [model_checkpoint_callback] else callbacks)
    | None => ret callbacks
    end ;;
  steps <-
    match steps_per_epoch a with
    | Some s => q <- lift (py_floordiv s (Zpos (hvd_size e))) ;; ret (Some q)
    | None => ret None
    end ;;
  match m with
  | ModelNet _ => emit (Compile optimizer (self_lossf self))
  | ModelStr _ => raise (AttributeError "compile")
  end ;;
  emit (Fit ds_train (epochs a) steps ds_val (validation_steps a)
            (self_verbose self) callbacks (self_use_multiprocessing self)) ;;
  emit (Evaluate ds_test (test_steps a) verbose) ;;
  emit PrintScore ;;
  emit TimingRuntime ;;
  (if String.eqb (plot a) "plt" then
     let learning_curve_fname :=
       if save_plot a then Some "learning_curve.png" else None in
     if first then
       emit (PlotHistory learning_curve_fname) ;;
       when (show_plot a) (emit PltShow)
     else ret tt
   else ret tt) ;;
  run_save_model self a m ;;
  ret {| self_learning_rate := lr;
         self_optimizer := optimizer;
         self_steps_per_epoch := steps |}.

(** The trainer object once [SupervisedTrainer.__init__] has returned. *)
Record SupervisedTrainer {U : Utils} : Type := {
  trainer : Trainer;
  ds_train_val_test : data_generator * data_generator * data_generator;
  trained_model : model_obj;
  attrs : run_attrs
}.

(** [SupervisedTrainer.__init__]: the base constructor, then [setup_datagen],
    [setup_model] and [run]. *)
Definition SupervisedTrainer_init {U : Utils} (e : env) (a : SupervisedTrainer_args)
  : M event SupervisedTrainer :=
  self <- Trainer_init e (model a) (loss a) (batch_size a) (device a)
                       (gpu_memory_growth a) (use_multiprocessing a)
                       (verbose a) (model_list a) ;;
  ds <- setup_datagen self a ;;
  m <- setup_model self a ;;
  r <- run e self a ds m ;;
  ret {| trainer := self;
         ds_train_val_test := ds;
         trained_model := m;
         attrs := r |}.

(** Whether fitting or evaluation has been started among the effects. *)
Definition is_training_event (ev : event) : bool :=
  match ev with
  | Compile _ _ | Fit _ _ _ _ _ _ _ _ | Evaluate _ _ _ => true
  | _ => false
  end.

Definition training_started (tr : list event) : bool := existsb is_training_event tr.

(** The paths at which a final model was written. *)
Definition saved_models (tr : list event) : list string :=
  flat_map (fun ev => match ev with ModelSave p => [p] | _ => [] end) tr.

(** The environment of the member of rank [r] in a process group of [size]
    workers, every worker seeing the same device lists. *)
Definition member_env (size : positive) (gpus cpus : list string) (r : Z) : env :=
  {| hvd_size := size;
     hvd_rank := r;
     hvd_local_rank := r;
     gpu_devices := gpus;
     cpu_devices := cpus |}.




(** The optimizers handed to [model.compile] among the effects. *)
Definition compiled_optimizers (tr : list event) : list optimizer :=
  flat_map (fun ev => match ev with Compile opt _ => [opt] | _ => [] end) tr.

(** Whether [model.fit] was called among the effects. *)
Definition fit_called (tr : list event) : bool :=
  existsb (fun ev => match ev with Fit _ _ _ _ _ _ _ _ => true | _ => false end) tr.

(** The list that [list_devices] returns for the device kind. *)
Definition listed_devices (e : env) (device : string) : list string :=
  if String.eqb device "GPU" then gpu_devices e else cpu_devices e.

(** [time_window] and the architecture disagree: a recurrent name without
    [time_window], or a [time_window] with a name that is not recurrent. *)
Definition time_window_disagrees (model : string) (time_window : option Z) : bool :=
  match time_window with
  | Some _ => negb (str_in model recmodels)
  | None => str_in model recmodels
  end.

(** The three messages of [setup_datagen]. *)
Definition patch_size_msg : string :=
  "`patch_size` must be divisible by `scale` (remainder must be zero)".

Definition time_window_given_msg (tw : Z) : string :=
  ("``time_window=" ++ str_of_int tw
   ++ "``, choose a model that handles samples with a temporal dimension")%string.

Definition time_window_missing_msg (name : string) : string :=
  ("``model=" ++ name
   ++ "``, the argument ``time_window`` must be a postive integer")%string.


(** The six architecture names that [setup_model] instantiates. *)
Definition known_models : list string :=
  ["resnet_spc"; "resnet_rc"; "resnet_bi";
   "recurrent_resnet_spc"; "recurrent_resnet_rc"; "recurrent_resnet_bi"].

(** The effects that the code guards with [running_on_first_worker]: the
    model summary, the learning-curve plot and its display, the model save. *)
Definition first_worker_only (ev : event) : bool :=
  match ev with
  | ModelSummary | PlotHistory _ | PltShow | ModelSave _ => true
  | _ => false
  end.

(** The effects that configure or list devices. *)
Definition device_setup (ev : event) : bool :=
  match ev with
  | SetGpuMemoryGrowth | SetVisibleGpus _ | ListDevices _ => true
  | _ => false
  end.

(** The calls of [model.fit] among the effects: the steps per epoch, the
    verbosity and the callbacks of each. *)
Definition fit_calls (tr : list event) : list (option Z * Z * list callback) :=
  flat_map (fun ev => match ev with
                      | Fit _ _ steps _ _ v cbs _ => [(steps, v, cbs)]
                      | _ => []
                      end) tr.

(** The verbosity of each call of [model.evaluate] among the effects. *)
Definition evaluate_verbose (tr : list event) : list Z :=
  flat_map (fun ev => match ev with Evaluate _ _ v => [v] | _ => [] end) tr.

(** The directories created among the effects. *)
Definition created_directories (tr : list event) : list string :=
  flat_map (fun ev => match ev with Makedirs p => [p] | _ => [] end) tr.

Definition has_model_checkpoint (cbs : list callback) : bool :=
  existsb (fun cb => match cb with ModelCheckpoint _ _ _ => true | _ => false end) cbs.

(** The root ranks of the broadcast callbacks in a list of callbacks. *)
Definition broadcast_roots (cbs : list callback) : list Z :=
  flat_map (fun cb => match cb with
                      | BroadcastGlobalVariablesCallback r => [r]
                      | _ => []
                      end) cbs.

Definition datagen_batch_size (d : data_generator) : Z :=
  match d with DataGenerator _ _ params => dg_batch_size params end.

Definition datagen_data (d : data_generator) : ndarray4 :=
  match d with DataGenerator data _ _ => data end.

(** The [time_window] a recurrent network was built with; [None] for a
    network that is not recurrent. *)
Definition network_time_window {U : Utils} (n : network) : option (option Z) :=
  match n with
  | recurrent_resnet_spc _ _ tw _
  | recurrent_resnet_rc _ _ tw _
  | recurrent_resnet_bi _ tw _ => Some tw
  | _ => None
  end.

(** A concrete [Utils], for running the model on examples: the six
    architecture names that [setup_model] knows. *)
Definition example_utils : Utils :=
  {| MODELS := ["resnet_spc"; "resnet_bi"; "resnet_rc";
                "recurrent_resnet_spc"; "recurrent_resnet_rc";
                "recurrent_resnet_bi"];
     checkarg_model_msg := fun _ _ => "`model` not recognized";
     ArchParams := unit |}.

(** An environment and a call for concrete runs: four workers with one GPU
    each, and the end-to-end scenario of the specification (arrays of shape
    [100,20,20,1], [20,20,20,1] and [10,20,20,1], [resnet_spc], scale 4, patches
    of 16, two epochs). *)
Definition example_env : env :=
  {| hvd_size := 4;
     hvd_rank := 0;
     hvd_local_rank := 0;
     gpu_devices := ["GPU:0"; "GPU:1"; "GPU:2"; "GPU:3"];
     cpu_devices := ["CPU:0"] |}.

Definition example_array (n : Z) : ndarray4 :=
  {| nsamples := n; lat := 20; lon := 20; last_dim := 1 |}.

Definition example_args : SupervisedTrainer_args (U := example_utils) :=
  {| model := "resnet_spc";
     data_train := example_array 100;
     data_val := example_array 20;
     data_test := example_array 10;
     predictors_train := None;
     predictors_val := None;
     predictors_test := None;
     loss := "mae";
     batch_size := 64;
     device := "GPU";
     gpu_memory_growth := true;
     use_multiprocessing := false;
     model_list := None;
     topography := None;
     landocean := None;
     scale := 4;
     interpolation := "bicubic";
     patch_size := Some 16;
     time_window := None;
     epochs := 2;
     steps_per_epoch := None;
     validation_steps := None;
     test_steps := None;
     learning_rate := LrFloat 1e-4%float;
     lr_decay_after := Some 1e5%float;
     early_stopping := false;
     patience := 6;
     min_delta := 0%float;
     plot := "plt";
     show_plot := true;
     save_plot := false;
     save := true;
     save_path := None;
     savecheckpoint_path := Some "./checkpoints/";
     verbose := 1;
     architecture_params := (tt : ArchParams (Utils := example_utils)) |}.

(** The same call with some arguments replaced. *)
Definition example_args_with (model' device' : string) (scale' : Z)
    (patch_size' time_window' : option Z) (save_path' : option string)
  : SupervisedTrainer_args (U := example_utils) :=
  {| model := model';
     data_train := data_train example_args;
     data_val := data_val example_args;
     data_test := data_test example_args;
     predictors_train := None;
     predictors_val := None;
     predictors_test := None;
     loss := loss example_args;
     batch_size := batch_size example_args;
     device := device';
     gpu_memory_growth := true;
     use_multiprocessing := false;
     model_list := None;
     topography := None;
     landocean := None;
     scale := scale';
     interpolation := interpolation example_args;
     patch_size := patch_size';
     time_window := time_window';
     epochs := epochs example_args;
     steps_per_epoch := None;
     validation_steps := None;
     test_steps := None;
     learning_rate := learning_rate example_args;
     lr_decay_after := lr_decay_after example_args;
     early_stopping := false;
     patience := patience example_args;
     min_delta := min_delta example_args;
     plot := plot example_args;
     show_plot := true;
     save_plot := false;
     save := true;
     save_path := save_path';
     savecheckpoint_path := savecheckpoint_path example_args;
     verbose := verbose example_args;
     architecture_params := (tt : ArchParams (Utils := example_utils)) |}.

(** The example call with another architecture name, list of admitted
    names, learning rate and verbosity. *)
Definition example_args_variant (model' : string) (model_list' : option (list string))
    (learning_rate' : learning_rate_arg) (verbose' : Z)
  : SupervisedTrainer_args (U := example_utils) :=
  {| model := model';
     data_train := data_train example_args;
     data_val := data_val example_args;
     data_test := data_test example_args;
     predictors_train := None;
     predictors_val := None;
     predictors_test := None;
     loss := loss example_args;
     batch_size := batch_size example_args;
     device := device example_args;
     gpu_memory_growth := true;
     use_multiprocessing := false;
     model_list := model_list';
     topography := None;
     landocean := None;
     scale := scale example_args;
     interpolation := interpolation example_args;
     patch_size := patch_size example_args;
     time_window := None;
     epochs := epochs example_args;
     steps_per_epoch := Some 10;
     validation_steps := None;
     test_steps := None;
     learning_rate := learning_rate';
     lr_decay_after := lr_decay_after example_args;
     early_stopping := true;
     patience := patience example_args;
     min_delta := min_delta example_args;
     plot := plot example_args;
     show_plot := true;
     save_plot := false;
     save := true;
     save_path := None;
     savecheckpoint_path := savecheckpoint_path example_args;
     verbose := verbose';
     architecture_params := (tt : ArchParams (Utils := example_utils)) |}.

(** The trainer, the data generators and the network of the example call. *)
Definition example_trainer : Trainer :=
  {| self_model := "resnet_spc";
     self_batch_size := 64;
     self_loss := "mae";
     self_device := "GPU";
     self_gpu_memory_growth := true;
     self_use_multiprocessing := false;
     self_verbose := 1;
     self_global_batch_size := 256;
     self_running_on_first_worker := true;
     self_lossf := MeanAbsoluteError |}.

Definition example_datagens : data_generator * data_generator * data_generator :=
  let params :=
    {| dg_scale := 4;
       dg_batch_size := 256;
       dg_topography := None;
       dg_landocean := None;
       dg_patch_size := Some 16;
       dg_model := "resnet_spc";
       dg_interpolation := "bicubic";
       dg_time_window := None |} in
  (DataGenerator (example_array 100) None params,
   DataGenerator (example_array 20) None params,
   DataGenerator (example_array 10) None params).

Definition example_network : network (U := example_utils) :=
  resnet_spc 4 (Channels 1) (tt : ArchParams (Utils := example_utils)).

End TrainingLogic.

(* ===================================================================== *)
(** * cgan.py *)
(* ===================================================================== *)

Module Cgan.

(** TensorFlow, the network constructors and the data loader, as cgan.py uses
    them.  [Weights] stands for the trainable variables of a network,
    [OptimizerState] for an Adam optimizer, [gradient loss w] for
    [tape.gradient] of a loss, seen as a function of the variables, at [w]. *)
Class Framework : Type := {
  Tensor : Type;
  Sample : Type;
  StaticField : Type;
  Weights : Type;
  OptimizerState : Type;
  ones_like : Tensor -> Tensor;
  zeros_like : Tensor -> Tensor;
  (* tf.keras.losses.BinaryCrossentropy(from_logits=True)(y_true, y_pred) *)
  binary_crossentropy : Tensor -> Tensor -> Tensor;
  tsub : Tensor -> Tensor -> Tensor;
  tabs : Tensor -> Tensor;
  reduce_mean : Tensor -> Tensor;
  tadd : Tensor -> Tensor -> Tensor;
  (* a Python number times a tensor *)
  scale_by : Z -> Tensor -> Tensor;
  (* tf.cast(a[tf.newaxis,...], tf.float32) *)
  cast_newaxis : Tensor -> Tensor;
  (* generator(x, training=True) *)
  generator_call : Weights -> Tensor -> Tensor;
  (* discriminator([x, y], training=True) *)
  discriminator_call : Weights -> Tensor -> Tensor -> Tensor;
  gradient : (Weights -> Tensor) -> Weights -> Weights;
  (* optimizer.apply_gradients(zip(gradients, variables)) *)
  apply_gradients : OptimizerState -> Weights -> Weights -> OptimizerState * Weights;
  (* tf.keras.optimizers.Adam(learning_rate, beta_1=...) *)
  Adam : float -> float -> OptimizerState;
  (* rspc(scale, n_channels, n_filters, n_res_blocks, n_channels_out, attention) *)
  rspc : Z -> Z -> Z -> Z -> Z -> bool -> Weights;
  (* rint(n_channels, n_filters, n_res_blocks, n_channels_out, attention) *)
  rint : Z -> Z -> Z -> Z -> bool -> Weights;
  (* residual_discriminator(n_channels, n_filters, n_res_blocks, model, attention) *)
  residual_discriminator : Z -> Z -> Z -> string -> bool -> Weights;
  (* create_pair_hr_lr(x, None, scale, topography, landocean, patch_size, model,
     interpolation), returning (hr_array, lr_array) *)
  create_pair_hr_lr : Sample -> Z -> option StaticField -> option StaticField ->
                      Z -> string -> string -> Tensor * Tensor
}.

Section WithFramework.
Context {F : Framework}.

(** [generator_loss]; the optional argument is [None] when the caller leaves
    [lambda_scaling_factor] to its default. *)
Definition generator_loss (disc_generated_output gen_output target : Tensor)
    (lambda_scaling_factor : option Z) : Tensor * Tensor * Tensor :=
  let lambda_scaling_factor :=
    match lambda_scaling_factor with
    | Some l => l
    | None => 100
    end in
  let gan_loss :=
    binary_crossentropy (ones_like disc_generated_output) disc_generated_output in
  let l1_loss := reduce_mean (tabs (tsub target gen_output)) in
  let total_gen_loss := tadd gan_loss (scale_by lambda_scaling_factor l1_loss) in
  (total_gen_loss, gan_loss, l1_loss).

(** [discriminator_loss]. *)
Definition discriminator_loss (disc_real_output disc_generated_output : Tensor)
  : Tensor :=
  let real_loss := binary_crossentropy (ones_like disc_real_output) disc_real_output in
  let generated_loss :=
    binary_crossentropy (zeros_like disc_generated_output) disc_generated_output in
  let total_disc_loss := tadd real_loss generated_loss in
  total_disc_loss.

(** The two networks and their optimizers: the objects that [train_step]
    updates in place and that the checkpoint refers to. *)
Record gan_state : Type := {
  generator : Weights;
  discriminator : Weights;
  generator_optimizer : OptimizerState;
  discriminator_optimizer : OptimizerState
}.

Definition losses : Type := (Tensor * Tensor * Tensor * Tensor)%type.

Inductive event : Type :=
| CreateFileWriter (logdir : string)
| PrintEpoch (epoch : Z)
| PrintDot
| PrintNewline
| PrintLosses (l : losses)
| PrintTimeTaken (epoch : Z)
| TrainStepCall (lr_array hr_array : Tensor) (epoch : Z)
| SummaryScalar (name : string) (value : Tensor) (step : Z)
| CheckpointSave (file_prefix : string) (saved : gan_state)
| NpSave (path : string) (gentotal gengan genl1 disc : list Tensor)
| TimingRuntime.

(** Lines 69-77: the forward passes under the two tapes and the four losses,
    as a function of the variables of the two networks. *)
Definition forward_losses (lr_array hr_array : Tensor) (gen_w disc_w : Weights)
  : losses :=
  let gen_lr_array := generator_call gen_w lr_array in
  let disc_real_output := discriminator_call disc_w lr_array hr_array in
  let disc_generated_output := discriminator_call disc_w lr_array gen_lr_array in
  let '(gen_total_loss, gen_gan_loss, gen_l1_loss) :=
    generator_loss disc_generated_output gen_lr_array hr_array None in
  let disc_loss := discriminator_loss disc_real_output disc_generated_output in
  (gen_total_loss, gen_gan_loss, gen_l1_loss, disc_loss).

Definition gen_total_of (l : losses) : Tensor := fst (fst (fst l)).
Definition disc_loss_of (l : losses) : Tensor := snd l.

(** [train_step]; the call itself, with the arrays and the epoch it
    receives, is the first effect recorded, then the four summaries. *)
Definition train_step (lr_array hr_array : Tensor) (st : gan_state) (epoch : Z)
  : M event (gan_state * losses) :=
  emit (TrainStepCall lr_array hr_array epoch) ;;
  let lr_array := cast_newaxis lr_array in
  let hr_array := cast_newaxis hr_array in
  let '(gen_total_loss, gen_gan_loss, gen_l1_loss, disc_loss) :=
    forward_losses lr_array hr_array (generator st) (discriminator st) in
  let generator_gradients :=
    gradient (fun w => gen_total_of (forward_losses lr_array hr_array w (discriminator st)))
             (generator st) in
  let discriminator_gradients :=
    gradient (fun w => disc_loss_of (forward_losses lr_array hr_array (generator st) w))
             (discriminator st) in
  let '(gen_opt, gen_w) :=
    apply_gradients (generator_optimizer st) generator_gradients (generator st) in
  let '(disc_opt, disc_w) :=
    apply_gradients (discriminator_optimizer st) discriminator_gradients
                    (discriminator st) in
  emit (SummaryScalar "gen_total_loss" gen_total_loss epoch) ;;
  emit (SummaryScalar "gen_gan_loss" gen_gan_loss epoch) ;;
  emit (SummaryScalar "gen_l1_loss" gen_l1_loss epoch) ;;
  emit (SummaryScalar "disc_loss" disc_loss epoch) ;;
  ret ({| generator := gen_w;
          discriminator := disc_w;
          generator_optimizer := gen_opt;
          discriminator_optimizer := disc_opt |},
       (gen_total_loss, gen_gan_loss, gen_l1_loss, disc_loss)).

(** The arguments of [training_cgan]. *)
Record training_cgan_args : Type := {
  x_train : list Sample;
  epochs : Z;
  model : string;
  scale : Z;
  patch_size : Z;
  interpolation : string;
  topography : option StaticField;
  landocean : option StaticField;
  checkpoints_frequency : option Z;
  n_res_blocks : Z * Z;
  n_filters : Z;
  attention : bool
}.

(** The local variables of [training_cgan] that the loops read and update;
    [None] is a local that has not been assigned yet. *)
Record locals : Type := {
  l_generator : option Weights;
  l_discriminator : Weights;
  l_generator_optimizer : OptimizerState;
  l_discriminator_optimizer : OptimizerState;
  l_losses : option losses;
  gentotal : list Tensor;
  gengan : list Tensor;
  genl1 : list Tensor;
  disc : list Tensor
}.

(** Lines 155-164: the body of the loop over the samples. *)
Definition train_one_sample (a : training_cgan_args) (epoch i : Z) (s : locals)
  : M event locals :=
  when ((i + 1) mod 100 =? 0) (emit PrintDot) ;;
  x <- lift (getitem (x_train a) i) ;;
  let '(hr_array, lr_array) :=
    create_pair_hr_lr x (scale a) (topography a) (landocean a) (patch_size a)
                      (model a) (interpolation a) in
  g <- lift (read_local "generator" (l_generator s)) ;;
  r <- train_step lr_array hr_array
         {| generator := g;
            discriminator := l_discriminator s;
            generator_optimizer := l_generator_optimizer s;
            discriminator_optimizer := l_discriminator_optimizer s |} epoch ;;
  let '(st, ls) := r in
  ret {| l_generator := Some (generator st);
         l_discriminator := discriminator st;
         l_generator_optimizer := generator_optimizer st;
         l_discriminator_optimizer := discriminator_optimizer st;
         l_losses := Some ls;
         gentotal := gentotal s;
         gengan := gengan s;
         genl1 := genl1 s;
         disc := disc s |}.

(** [checkpoint.save(file_prefix = checkpoint_prefix)]: the checkpoint object
    refers to the two networks and the two optimizers, and writes their
    current state.  [checkpoint] is [None] when the local was never
    assigned; when it was assigned, so was [generator]. *)
Definition checkpoint_save (checkpoint : option string) (s : locals) : M event unit :=
  file_prefix <- lift (read_local "checkpoint" checkpoint) ;;
  g <- lift (read_local "generator" (l_generator s)) ;;
  emit (CheckpointSave file_prefix
          {| generator := g;
             discriminator := l_discriminator s;
             generator_optimizer := l_generator_optimizer s;
             discriminator_optimizer := l_discriminator_optimizer s |}).

(** Lines 150-178: the body of the loop over the epochs. *)
Definition train_one_epoch (a : training_cgan_args) (checkpoint : option string)
    (epoch : Z) (s : locals) : M event locals :=
  emit (PrintEpoch epoch) ;;
  let n_samples := 10 in
  s <- for_each (range n_samples) (train_one_sample a epoch) s ;;
  emit PrintNewline ;;
  ls <- lift (read_local "gen_total_loss" (l_losses s)) ;;
  emit (PrintLosses ls) ;;
  let '(gen_total_loss, gen_gan_loss, gen_l1_loss, disc_loss) := ls in
  let s := {| l_generator := l_generator s;
              l_discriminator := l_discriminator s;
              l_generator_optimizer := l_generator_optimizer s;
              l_discriminator_optimizer := l_discriminator_optimizer s;
              l_losses := l_losses s;
              gentotal := gentotal s ++ [gen_total_loss];
              gengan := gengan s ++ [gen_gan_loss];
              genl1 := genl1 s ++ [gen_l1_loss];
              disc := disc s ++ [disc_loss] |} in
  match checkpoints_frequency a with
  | Some f =>
      r <- lift (py_mod (epoch + 1) f) ;;
      if r =? 0 then checkpoint_save checkpoint s else ret tt
  | None => ret tt
  end ;;
  emit (PrintTimeTaken (epoch + 1)) ;;
  ret s.

(** [training_cgan].  The wall-clock readings ([Timing()], [time.time()],
    the time stamp in the name of the log directory) are left out; the printed
    lines are recorded by kind. *)
Definition training_cgan (a : training_cgan_args) : M event Weights :=
  emit (CreateFileWriter "cgan_logs/fit/") ;;
  let n_channels := 1 in
  let n_channels := match topography a with Some _ => n_channels + 1 | None => n_channels end in
  let n_channels := match landocean a with Some _ => n_channels + 1 | None => n_channels end in
  let generator :=
    if String.eqb (model a) "rspc" then
      Some (rspc (scale a) n_channels (n_filters a) (fst (n_res_blocks a)) 1 (attention a))
    else if String.eqb (model a) "rint" then
      Some (rint n_channels (n_filters a) (fst (n_res_blocks a)) 1 (attention a))
    else None in
  let discriminator :=
    residual_discriminator n_channels (n_filters a) (snd (n_res_blocks a)) (model a)
                           (attention a) in
  let generator_optimizer := Adam 2e-4%float 0.5%float in
  let discriminator_optimizer := Adam 2e-4%float 0.5%float in
  checkpoint <-
    match checkpoints_frequency a with
    | Some _ =>
        let checkpoint_dir := "./cgan_checkpoints" in
        let checkpoint_prefix := os_path_join checkpoint_dir "ckpt" in
        _ <- lift (read_local "generator" generator) ;;
        ret (Some checkpoint_prefix)
    | None => ret None
    end ;;
  s <- for_each (range (epochs a)) (train_one_epoch a checkpoint)
         {| l_generator := generator;
            l_discriminator := discriminator;
            l_generator_optimizer := generator_optimizer;
            l_discriminator_optimizer := discriminator_optimizer;
            l_losses := None;
            gentotal := [];
            gengan := [];
            genl1 := [];
            disc := [] |} ;;
  checkpoint_save checkpoint s ;;
  emit (NpSave "./losses.npy" (gentotal s) (gengan s) (genl1 s) (disc s)) ;;
  emit TimingRuntime ;;
  lift (read_local "generator" (l_generator s)).

(** The calls of [train_step] among the effects, with their arguments. *)
Definition train_step_calls (tr : list event) : list (Tensor * Tensor * Z) :=
  flat_map (fun ev => match ev with
                      | TrainStepCall lr_array hr_array epoch => [(lr_array, hr_array, epoch)]
                      | _ => []
                      end) tr.

(** The call of [train_step] that the loop makes for sample [x] in epoch
    [epoch]. *)
Definition call_on (a : training_cgan_args) (epoch : Z) (x : Sample)
  : Tensor * Tensor * Z :=
  let '(hr_array, lr_array) :=
    create_pair_hr_lr x (scale a) (topography a) (landocean a) (patch_size a)
                      (model a) (interpolation a) in
  (lr_array, hr_array, epoch).

(** The calls of [train_step] that one pass over the first ten samples of
    [x_train] makes in epoch [epoch]. *)
Definition calls_on_first_ten (a : training_cgan_args) (epoch : Z)
  : list (Tensor * Tensor * Z) :=
  map (call_on a epoch) (firstn 10 (x_train a)).

(** The local [generator] has been assigned. *)
Definition generator_bound (s : locals) : Prop := exists g, l_generator s = Some g.

(** The events that neither open an epoch nor write a checkpoint. *)
Definition silent (ev : event) : bool :=
  match ev with
  | PrintEpoch _ | CheckpointSave _ _ => false
  | _ => true
  end.

(** Line 175: whether the epoch of 0-based index [epoch] is on the cadence. *)
Definition periodic (checkpoints_frequency : option Z) (epoch : Z) : bool :=
  match checkpoints_frequency with
  | Some f => (epoch + 1) mod f =? 0
  | None => false
  end.

(** The generator loss in the words of the specification: the adversarial
    term, binary cross-entropy between the verdict of the discriminator on the
    generated output and an all-ones target, plus [lambda] times the mean
    absolute error between the generated and the target image. *)
Definition adversarial_term (d : Tensor) : Tensor :=
  binary_crossentropy (ones_like d) d.

Definition mean_absolute_error (g t : Tensor) : Tensor :=
  reduce_mean (tabs (tsub t g)).

Definition spec_generator_loss (d g t : Tensor) (lambda : Z) : Tensor :=
  tadd (adversarial_term d) (scale_by lambda (mean_absolute_error g t)).

(** For each checkpoint written, the number of epochs that had been entered
    when it was written (the 1-based index of the current or last epoch),
    counting from [n]. *)
Fixpoint saves_after_from (n : Z) (tr : list event) : list Z :=
  match tr with
  | [] => []
  | PrintEpoch _ :: tr' => saves_after_from (n + 1) tr'
  | CheckpointSave _ _ :: tr' => n :: saves_after_from n tr'
  | _ :: tr' => saves_after_from n tr'
  end.

Definition saves_after (tr : list event) : list Z := saves_after_from 0 tr.

(** The 1-based indices of the epochs, among [epochs], that are multiples of
    [f]. *)
Definition multiples_upto (f epochs : Z) : list Z :=
  filter (fun k => k mod f =? 0) (map (fun e => e + 1) (range epochs)).

(** The steps under which the summaries were recorded, in order. *)
Definition summary_steps (tr : list event) : list Z :=
  flat_map (fun ev => match ev with SummaryScalar _ _ step => [step] | _ => [] end) tr.

(** The states of the networks and optimizers written by the checkpoints. *)
Definition saved_states (tr : list event) : list gan_state :=
  flat_map (fun ev => match ev with CheckpointSave _ st => [st] | _ => [] end) tr.

(** The loss histories written by [np.save]. *)
Definition saved_histories (tr : list event)
  : list (list Tensor * list Tensor * list Tensor * list Tensor) :=
  flat_map (fun ev => match ev with
                      | NpSave _ a b c d => [(a, b, c, d)]
                      | _ => []
                      end) tr.

(** The steps of the summaries of one epoch: four for each of the ten
    training steps, all under the epoch. *)
Definition forty (epoch : Z) : list Z := repeat epoch 40.

Definition is_checkpoint_save (ev : event) : bool :=
  match ev with CheckpointSave _ _ => true | _ => false end.

Definition is_print_dot (ev : event) : bool :=
  match ev with PrintDot => true | _ => false end.

End WithFramework.

(** A small [Framework] on integers, for running the loops on examples; it
    stands for no numerics of TensorFlow. *)
Definition example_framework : Framework :=
  {| Tensor := Z;
     Sample := Z;
     StaticField := unit;
     Weights := Z;
     OptimizerState := Z;
     ones_like := fun _ => 1;
     zeros_like := fun _ => 0;
     binary_crossentropy := fun y p => Z.abs (y - p);
     tsub := Z.sub;
     tabs := Z.abs;
     reduce_mean := fun t => t;
     tadd := Z.add;
     scale_by := Z.mul;
     cast_newaxis := fun t => t;
     generator_call := fun w x => w + x;
     discriminator_call := fun w x y => w + x - y;
     gradient := fun f w => f (w + 1) - f w;
     apply_gradients := fun o g w => (o + 1, w - g);
     Adam := fun _ _ => 0;
     rspc := fun _ _ _ _ _ _ => 0;
     rint := fun _ _ _ _ _ => 0;
     residual_discriminator := fun _ _ _ _ _ => 0;
     create_pair_hr_lr := fun x _ _ _ _ _ _ => (x + 100, x) |}.

(** A call of [training_cgan] on twelve samples, for concrete runs. *)
Definition example_cgan_args (f : option Z) (E : Z) (name : string)
  : training_cgan_args (F := example_framework) :=
  {| x_train := ([0; 1; 2; 3; 4; 5; 6; 7; 8; 9; 10; 11]
                 : list (Sample (Framework := example_framework)));
     epochs := E;
     model := name;
     scale := 5;
     patch_size := 50;
     interpolation := "bicubic";
     topography := None;
     landocean := None;
     checkpoints_frequency := f;
     n_res_blocks := (20, 4);
     n_filters := 64;
     attention := false |}.

(** A call of [training_cgan] on three samples only. *)
Definition example_cgan_args_short (f : option Z) (E : Z)
  : training_cgan_args (F := example_framework) :=
  {| x_train := ([7; 8; 9] : list (Sample (Framework := example_framework)));
     epochs := E;
     model := "rint";
     scale := 5;
     patch_size := 50;
     interpolation := "bicubic";
     topography := None;
     landocean := None;
     checkpoints_frequency := f;
     n_res_blocks := (20, 4);
     n_filters := 64;
     attention := false |}.

End Cgan.

(* ===================================================================== *)
(** * Properties of the effect monad and of the Python primitives *)
(* ===================================================================== *)

Section MonadFacts.
Context {E : Type}.

Lemma bind_Ok {A B} (m : M E A) (k : A -> M E B) a t :
  m = (Ok a, t) -> bind m k = (outcome (k a), t ++ effects (k a)).
Proof. intros ->. unfold bind, outcome, effects. now destruct (k a). Qed.

Lemma outcome_bind {A B} (m : M E A) (k : A -> M E B) :
  outcome (bind m k) =
  match outcome m with
  | Ok a => outcome (k a)
  | Raise e => Raise e
  end.
Proof.
  destruct m as [[a|e] t]; cbn; [now destruct (k a)|reflexivity].
Qed.

Lemma effects_bind {A B} (m : M E A) (k : A -> M E B) :
  effects (bind m k) =
  effects m ++ match outcome m with
               | Ok a => effects (k a)
               | Raise _ => []
               end.
Proof.
  destruct m as [[a|e] t]; cbn; [now destruct (k a)|now rewrite app_nil_r].
Qed.

Lemma effects_bind_Forall {A B} (P : E -> Prop) (m : M E A) (k : A -> M E B) :
  Forall P (effects m) ->
  (forall a, outcome m = Ok a -> Forall P (effects (k a))) ->
  Forall P (effects (bind m k)).
Proof.
  intros Hm Hk. rewrite effects_bind. apply Forall_app. split; [exact Hm|].
  destruct (outcome m) as [a|e] eqn:Ho; [now apply Hk|constructor].
Qed.

Lemma effects_emit_Forall (P : E -> Prop) (ev : E) :
  P ev -> Forall P (effects (emit ev)).
Proof. intros Hev. cbn. now constructor. Qed.

Lemma effects_ret_Forall {A} (P : E -> Prop) (a : A) :
  Forall P (effects (ret (E:=E) a)).
Proof. constructor. Qed.

Lemma effects_raise_Forall {A} (P : E -> Prop) (e : exn) :
  Forall P (effects (raise (E:=E) (A:=A) e)).
Proof. constructor. Qed.

Lemma effects_lift_Forall {A} (P : E -> Prop) (r : result A) :
  Forall P (effects (lift (E:=E) r)).
Proof. constructor. Qed.

Lemma effects_when_Forall (P : E -> Prop) (b : bool) (m : M E unit) :
  Forall P (effects m) -> Forall P (effects (when b m)).
Proof. intros Hm. destruct b; [exact Hm|constructor]. Qed.

Lemma existsb_false_Forall (f : E -> bool) (l : list E) :
  existsb f l = false <-> Forall (fun x => f x = false) l.
Proof.
  induction l as [|x l IH]; cbn.
  - split; [constructor|reflexivity].
  - rewrite orb_false_iff, IH. split.
    + intros [Hx Hl]. now constructor.
    + intros Hall. inversion Hall; subst. now split.
Qed.

End MonadFacts.

(** Proves that every effect of a computation built from the operations of
    the monad satisfies a property, given a tactic [leaf] that proves it of an
    emitted event.  Continuations after a computation that has raised are
    closed by the contradiction. *)
Ltac effects_forall leaf :=
  repeat first
    [ apply effects_ret_Forall
    | apply effects_raise_Forall
    | apply effects_lift_Forall
    | apply effects_emit_Forall; leaf
    | apply effects_when_Forall
    | apply effects_bind_Forall;
        [|let x := fresh in let Hx := fresh in intros x Hx; try discriminate Hx]
    | match goal with
      | |- Forall _ (effects (if ?c then _ else _)) => destruct c
      | |- Forall _ (effects (match ?x with _ => _ end)) => destruct x
      end ].

Section PyFacts.

Lemma startswith_app (s post : string) : startswith s (s ++ post) = true.
Proof.
  induction s as [|c s IH]; cbn; [reflexivity|].
  now rewrite Ascii.eqb_refl, IH.
Qed.

Lemma includes_app_r (s pre t : string) :
  includes s t = true -> includes s (pre ++ t) = true.
Proof.
  intros Ht. induction pre as [|c pre IH]; cbn; [exact Ht|].
  rewrite IH. apply orb_true_r.
Qed.

Lemma includes_prefix (s post : string) : includes s (s ++ post) = true.
Proof.
  pose proof (startswith_app s post) as Hs.
  destruct (s ++ post)%string; cbn; cbn in Hs; now rewrite Hs.
Qed.

(** A string occurs in every string built around it. *)
Lemma includes_middle (s pre post : string) :
  includes s (pre ++ s ++ post) = true.
Proof. apply includes_app_r, includes_prefix. Qed.

Lemma py_mod_Ok (a b : Z) : b <> 0 -> py_mod a b = Ok (a mod b).
Proof. intros Hb. unfold py_mod. now apply Z.eqb_neq in Hb as ->. Qed.

End PyFacts.

(* ===================================================================== *)
(** * training_logic.py: the base constructor *)
(* ===================================================================== *)

Section TrainerFacts.
Import TrainingLogic.
Context {U : Utils}.

(** The outcome of [Trainer.__init__]: the three checks, in the order the
    constructor makes them. *)
Lemma Trainer_init_outcome e model loss batch_size device g u v ml :
  outcome (Trainer_init e model loss batch_size device g u v ml) =
  if negb (String.eqb device "GPU" || String.eqb device "CPU")
  then Raise (ValueError "device not recognized")
  else
    match checkarg_model model (match ml with None => MODELS | Some l => l end) with
    | Raise err => Raise err
    | Ok model' =>
        match choose_loss loss with
        | Raise err => Raise err
        | Ok lossf =>
            Ok {| self_model := model';
                  self_batch_size := batch_size;
                  self_loss := loss;
                  self_device := device;
                  self_gpu_memory_growth := g;
                  self_use_multiprocessing := u;
                  self_verbose := v;
                  self_global_batch_size :=
                    batch_size * Z.of_nat (List.length (listed_devices e device));
                  self_running_on_first_worker :=
                    (String.eqb device "GPU" && (hvd_rank e =? 0))
                    || String.eqb device "CPU";
                  self_lossf := lossf |}
        end
    end.
Proof.
  unfold Trainer_init, listed_devices.
  destruct (verbose_in_1_2 v), (String.eqb device "GPU") eqn:Hgpu;
    [destruct g| |destruct g|];
    try (destruct (String.eqb device "CPU") eqn:Hcpu);
    cbn; try reflexivity;
    (destruct (checkarg_model model match ml with None => MODELS | Some l => l end)
       as [model'|err]; cbn; [|reflexivity]);
    destruct (choose_loss loss) as [lossf|err]; reflexivity.
Qed.

(** [Trainer.__init__] raises nothing but configuration errors. *)
Lemma Trainer_init_raises_ConfigurationError e model loss b device g u v ml err :
  outcome (Trainer_init e model loss b device g u v ml) = Raise err ->
  is_ConfigurationError err = true.
Proof.
  rewrite Trainer_init_outcome.
  destruct (negb _); [now intros [= <-]|].
  unfold checkarg_model, choose_loss.
  repeat match goal with
         | |- context [if ?c then _ else _] => destruct c
         end; intros [= <-]; reflexivity.
Qed.

(** No effect of [Trainer.__init__] starts training or writes a model. *)
Lemma Trainer_init_effects (P : event -> Prop) e model loss b device g u v ml :
  (forall ev, is_training_event ev = false ->
              (forall p, ev <> ModelSave p) -> P ev) ->
  Forall P (effects (Trainer_init e model loss b device g u v ml)).
Proof.
  intros HP. unfold Trainer_init.
  effects_forall ltac:(apply HP; [reflexivity|discriminate]).
Qed.

(** The constructor succeeds on a recognized device, architecture and loss. *)
Lemma Trainer_init_succeeds e model loss b device g u v ml lossf :
  device = "GPU" \/ device = "CPU" ->
  str_in model (match ml with None => MODELS | Some l => l end) = true ->
  choose_loss loss = Ok lossf ->
  exists t, outcome (Trainer_init e model loss b device g u v ml) = Ok t
            /\ self_model t = model
            /\ self_global_batch_size t
               = b * Z.of_nat (List.length (listed_devices e device))
            /\ self_running_on_first_worker t
               = (String.eqb device "GPU" && (hvd_rank e =? 0)) || String.eqb device "CPU".
Proof.
  intros Hdev Hmodel Hloss. rewrite Trainer_init_outcome.
  assert (negb (String.eqb device "GPU" || String.eqb device "CPU") = false) as ->
    by (destruct Hdev as [-> | ->]; reflexivity).
  unfold checkarg_model. rewrite Hmodel, Hloss.
  eexists. split; [reflexivity|]. cbn. auto.
Qed.

End TrainerFacts.

Section GlobalBatchSize.
Import TrainingLogic.
Context {U : Utils}.

(** C7.  Every [Trainer] construction on a recognized device, architecture
    and loss completes, and the global batch size it computes is the
    per-replica batch size [b] times the number of devices that
    [list_devices] reported. *)
Theorem global_batch_size_is_batch_size_times_devices
    e model loss b device g u v ml lossf :
  device = "GPU" \/ device = "CPU" ->
  str_in model (match ml with None => MODELS | Some l => l end) = true ->
  choose_loss loss = Ok lossf ->
  exists t,
    outcome (Trainer_init e model loss b device g u v ml) = Ok t
    /\ self_global_batch_size t = b * Z.of_nat (List.length (listed_devices e device)).
Proof.
  intros Hdev Hmodel Hloss.
  destruct (Trainer_init_succeeds e model loss b device g u v ml lossf Hdev Hmodel Hloss)
    as (t & Ht & _ & Hsize & _).
  now exists t.
Qed.

End GlobalBatchSize.

(** The example of the specification: 64 per replica on 4 devices. *)
Lemma global_batch_size_example :
  exists t,
    outcome (TrainingLogic.Trainer_init (U := TrainingLogic.example_utils)
               TrainingLogic.example_env "resnet_spc" "mae" 64 "GPU"
               true false 1 None) = Ok t
    /\ TrainingLogic.self_global_batch_size t
       = 64 * Z.of_nat (List.length
                          (TrainingLogic.listed_devices TrainingLogic.example_env "GPU")).
Proof.
  apply (global_batch_size_is_batch_size_times_devices
           (U := TrainingLogic.example_utils)) with (lossf := TrainingLogic.MeanAbsoluteError).
  - left. reflexivity.
  - reflexivity.
  - reflexivity.
Defined.

Section FirstWorker.
Import TrainingLogic.
Context {U : Utils}.






End FirstWorker.



(* ===================================================================== *)
(** * training_logic.py: the supervised trainer *)
(* ===================================================================== *)

Section MonadInversion.
Context {E : Type}.

Lemma outcome_bind_Ok_inv {A B} (m : M E A) (k : A -> M E B) b :
  outcome (bind m k) = Ok b ->
  exists a, outcome m = Ok a /\ outcome (k a) = Ok b.
Proof.
  rewrite outcome_bind. destruct (outcome m) as [a|e]; [|discriminate].
  intros Hk. now exists a.
Qed.

Lemma outcome_bind_Raise_inv {A B} (m : M E A) (k : A -> M E B) err :
  outcome (bind m k) = Raise err ->
  outcome m = Raise err \/ exists a, outcome m = Ok a /\ outcome (k a) = Raise err.
Proof.
  rewrite outcome_bind. destruct (outcome m) as [a|e].
  - intros Hk. right. now exists a.
  - intros [= <-]. now left.
Qed.

Lemma Forall_False_nil (l : list E) : Forall (fun _ => False) l -> l = [].
Proof. destruct l as [|x l]; [reflexivity|]. intros Hl. now inversion Hl. Qed.

Lemma raises_only_bind {A B} (Q : exn -> Prop) (m : M E A) (k : A -> M E B) :
  raises_only Q m -> (forall a, outcome m = Ok a -> raises_only Q (k a)) ->
  raises_only Q (bind m k).
Proof.
  intros Hm Hk err Herr.
  apply outcome_bind_Raise_inv in Herr as [Herr | (a & Ha & Herr)].
  - now apply Hm.
  - now apply (Hk a).
Qed.

Lemma raises_only_ret {A} (Q : exn -> Prop) (a : A) : raises_only Q (ret (E:=E) a).
Proof. intros err Herr. discriminate. Qed.

Lemma raises_only_emit (Q : exn -> Prop) (ev : E) : raises_only Q (emit ev).
Proof. intros err Herr. discriminate. Qed.

Lemma raises_only_when (Q : exn -> Prop) (b : bool) (m : M E unit) :
  raises_only Q m -> raises_only Q (when b m).
Proof. intros Hm. destruct b; [exact Hm|apply raises_only_ret]. Qed.

Lemma raises_only_raise {A} (Q : exn -> Prop) (e : exn) :
  Q e -> raises_only Q (raise (E:=E) (A:=A) e).
Proof. intros He err [= <-]. exact He. Qed.

Lemma raises_only_lift {A} (Q : exn -> Prop) (r : result A) :
  (forall e, r = Raise e -> Q e) -> raises_only Q (lift (E:=E) r).
Proof. intros Hr err Herr. now apply Hr. Qed.

End MonadInversion.

Section SupervisedTrainerFacts.
Import TrainingLogic.
Context {U : Utils}.

Lemma checkarg_model_Ok name l name' :
  checkarg_model name l = Ok name' -> name' = name /\ str_in name l = true.
Proof.
  unfold checkarg_model. destruct (str_in name l); [|discriminate].
  now intros [= <-].
Qed.

Lemma Trainer_init_model e name loss b device g u v ml t :
  outcome (Trainer_init e name loss b device g u v ml) = Ok t ->
  self_model t = name
  /\ self_verbose t = v
  /\ self_running_on_first_worker t
     = (String.eqb device "GPU" && (hvd_rank e =? 0)) || String.eqb device "CPU".
Proof.
  rewrite Trainer_init_outcome. destruct (negb _); [discriminate|].
  destruct (checkarg_model name _) as [name'|err] eqn:Hc; [|discriminate].
  apply checkarg_model_Ok in Hc as [-> _].
  destruct (choose_loss loss); [|discriminate].
  intros [= <-]. cbn. auto.
Qed.

(** [setup_datagen] performs no effect. *)
Lemma setup_datagen_effects self a : effects (setup_datagen self a) = [].
Proof.
  apply Forall_False_nil. unfold setup_datagen.
  effects_forall ltac:(idtac).
Qed.

(** The divisibility check (line 283). *)
Lemma setup_datagen_patch_mismatch self a p r :
  patch_size a = Some p -> py_mod p (scale a) = Ok r -> r <> 0 ->
  outcome (setup_datagen self a) = Raise (ValueError patch_size_msg).
Proof.
  intros Hp Hmod Hr. unfold setup_datagen. rewrite Hp, Hmod.
  apply Z.eqb_neq in Hr. cbn. now rewrite Hr.
Qed.


(** Whatever [setup_datagen] raises, when the divisibility check itself can
    be evaluated, is a configuration error. *)
Lemma setup_datagen_raises self a err :
  patch_size a = None \/ scale a <> 0 ->
  outcome (setup_datagen self a) = Raise err ->
  err = ValueError patch_size_msg
  \/ (exists tw, time_window a = Some tw /\ err = ValueError (time_window_given_msg tw))
  \/ (time_window a = None /\ err = ValueError (time_window_missing_msg (self_model self))).
Proof.
  intros Hdom. unfold setup_datagen.
  destruct (patch_size a) as [p|] eqn:Hp.
  - destruct Hdom as [Hdom|Hdom]; [discriminate|].
    rewrite (py_mod_Ok p (scale a) Hdom).
    destruct (p mod scale a =? 0) eqn:Hr;
      [|cbn; rewrite Hr; cbn; intros [= <-]; now left].
    destruct (time_window a) as [tw|];
      destruct (str_in (self_model self) recmodels);
      cbn; rewrite Hr; cbn; intros [= <-]; eauto.
  - destruct (time_window a) as [tw|];
      destruct (str_in (self_model self) recmodels); cbn; intros [= <-]; eauto.
Qed.

(** An exception in the base constructor or in [setup_datagen] ends the
    construction before any training effect. *)
Lemma SupervisedTrainer_init_raises_in_setup e a err :
  outcome (Trainer_init e (model a) (loss a) (batch_size a) (device a)
             (gpu_memory_growth a) (use_multiprocessing a) (verbose a)
             (model_list a)) = Raise err
  \/ (exists self,
        outcome (Trainer_init e (model a) (loss a) (batch_size a) (device a)
                   (gpu_memory_growth a) (use_multiprocessing a) (verbose a)
                   (model_list a)) = Ok self
        /\ outcome (setup_datagen self a) = Raise err) ->
  outcome (SupervisedTrainer_init e a) = Raise err
  /\ training_started (effects (SupervisedTrainer_init e a)) = false.
Proof.
  intros Hraise. unfold SupervisedTrainer_init.
  rewrite outcome_bind, effects_bind.
  assert (Forall (fun ev => is_training_event ev = false)
            (effects (Trainer_init e (model a) (loss a) (batch_size a) (device a)
                        (gpu_memory_growth a) (use_multiprocessing a) (verbose a)
                        (model_list a)))) as Hquiet
    by (apply Trainer_init_effects; auto).
  destruct Hraise as [-> | (self & -> & Hsetup)].
  - split; [reflexivity|]. rewrite app_nil_r. now apply existsb_false_Forall.
  - rewrite outcome_bind, effects_bind, Hsetup, setup_datagen_effects.
    split; [reflexivity|]. cbn. rewrite app_nil_r. now apply existsb_false_Forall.
Qed.

(** C4.  Whenever [patch_size % scale] is not zero, the construction of a
    [SupervisedTrainer] raises a configuration error (a [ValueError]), and it
    does so before compiling, fitting or evaluating anything. *)
Theorem patch_size_not_multiple_of_scale_raises e a p r :
  patch_size a = Some p ->
  py_mod p (scale a) = Ok r ->
  r <> 0 ->
  exists err,
    outcome (SupervisedTrainer_init e a) = Raise err
    /\ is_ConfigurationError err = true
    /\ training_started (effects (SupervisedTrainer_init e a)) = false.
Proof.
  intros Hp Hmod Hr.
  destruct (outcome (Trainer_init e (model a) (loss a) (batch_size a) (device a)
                       (gpu_memory_growth a) (use_multiprocessing a) (verbose a)
                       (model_list a))) as [self|err] eqn:Hbase.
  - exists (ValueError patch_size_msg).
    destruct (SupervisedTrainer_init_raises_in_setup e a (ValueError patch_size_msg))
      as [Hout Hquiet].
    + right. exists self. split; [exact Hbase|].
      now apply setup_datagen_patch_mismatch with (p := p) (r := r).
    + now repeat split.
  - exists err.
    destruct (SupervisedTrainer_init_raises_in_setup e a err) as [Hout Hquiet];
      [now left|].
    repeat split; try assumption.
    now apply Trainer_init_raises_ConfigurationError in Hbase.
Qed.


(** [setup_model] neither trains nor saves, and raises no configuration
    error. *)
Lemma setup_model_effects (P : event -> Prop) self a :
  P ModelSummary -> Forall P (effects (setup_model self a)).
Proof.
  intros HP. unfold setup_model.
  effects_forall ltac:(exact HP).
Qed.

Lemma setup_model_raises self a err :
  outcome (setup_model self a) = Raise err -> is_ConfigurationError err = false.
Proof.
  unfold setup_model. rewrite outcome_bind. cbn [lift outcome fst].
  destruct (count_channels self a) as [c|]; cbn [read_local];
    repeat match goal with
           | |- context [if ?c then _ else _] => destruct c
           end;
    try (intros [= <-]; reflexivity);
    rewrite outcome_bind; cbn; intros [= <-]; reflexivity.
Qed.

Lemma setup_learning_rate_raises lr decay size e :
  setup_learning_rate lr decay size = Raise e -> is_ConfigurationError e = false.
Proof.
  unfold setup_learning_rate. destruct lr as [values|r|n]; try discriminate.
  destruct (nth_error values 0), (nth_error values 1); try discriminate;
    now intros [= <-].
Qed.

Lemma py_floordiv_pos a (size : positive) : py_floordiv a (Zpos size) = Ok (a / Zpos size).
Proof. reflexivity. Qed.

(** [run] raises no configuration error. *)
Lemma run_raises e self a ds m :
  raises_only (fun err => is_ConfigurationError err = false) (run e self a ds m).
Proof.
  unfold run, run_save_model. destruct ds as [[ds_train ds_val] ds_test].
  repeat first
    [ apply raises_only_ret
    | apply raises_only_emit
    | apply raises_only_raise; reflexivity
    | apply raises_only_when
    | apply raises_only_lift; first
        [ apply setup_learning_rate_raises
        | rewrite py_floordiv_pos; discriminate
        | let e := fresh in let He := fresh in
          intros e He; unfold read_local in He;
          repeat match type of He with
                 | context [match ?x with _ => _ end] => destruct x
                 end; try discriminate He; now injection He as <- ]
    | apply raises_only_bind; [|intros ? ?]
    | match goal with
      | |- raises_only _ (if ?c then _ else _) => destruct c
      | |- raises_only _ (match ?x with _ => _ end) => destruct x
      end ].
Qed.

(** With a [save_path] given by the caller, [run] writes no model. *)
Lemma run_effects_no_save e self a ds m p :
  save_path a = Some p ->
  Forall (fun ev => forall q, ev <> ModelSave q) (effects (run e self a ds m)).
Proof.
  intros Hsp. unfold run, run_save_model. rewrite Hsp.
  destruct ds as [[ds_train ds_val] ds_test].
  effects_forall ltac:(intros ?; discriminate).
Qed.

(** On the first worker, with [save] set and a [save_path] given by the
    caller, [run] does not complete. *)
Lemma run_save_path_given_fails e self a ds m p r :
  save a = true -> save_path a = Some p ->
  self_running_on_first_worker self = true ->
  outcome (run e self a ds m) <> Ok r.
Proof.
  intros Hsave Hsp Hfirst Hok. unfold run in Hok.
  destruct ds as [[ds_train ds_val] ds_test].
  do 9 (apply outcome_bind_Ok_inv in Hok as (? & _ & Hok)).
  apply outcome_bind_Ok_inv in Hok as (? & Hok & _).
  unfold run_save_model in Hok. rewrite Hsave, Hsp, Hfirst in Hok.
  discriminate Hok.
Qed.

End SupervisedTrainerFacts.

Section SavingTheModel.
Import TrainingLogic.
Context {U : Utils}.

Lemma saved_models_nil (tr : list event) :
  Forall (fun ev => forall q, ev <> ModelSave q) tr -> saved_models tr = [].
Proof.
  induction 1 as [|ev tr Hev _ IH]; [reflexivity|].
  unfold saved_models in *. cbn. rewrite IH.
  destruct ev; try reflexivity. now destruct (Hev path).
Qed.

(** C2 (what the code does).  When the caller gives a [save_path], no
    effect of the construction writes a model, whichever worker runs it; and
    on the first worker, with [save] set, the construction ends in an
    exception instead of completing. *)
Theorem given_save_path_is_never_written e a p :
  save a = true ->
  save_path a = Some p ->
  saved_models (effects (SupervisedTrainer_init e a)) = []
  /\ (device a = "CPU" \/ (device a = "GPU" /\ hvd_rank e = 0) ->
      exists err, outcome (SupervisedTrainer_init e a) = Raise err).
Proof.
  intros Hsave Hsp. split.
  - apply saved_models_nil. unfold SupervisedTrainer_init.
    apply effects_bind_Forall.
    { apply Trainer_init_effects. intros ev _ Hev. exact Hev. }
    intros self _. apply effects_bind_Forall.
    { rewrite setup_datagen_effects. constructor. }
    intros ds _. apply effects_bind_Forall.
    { apply setup_model_effects. intros q. discriminate. }
    intros m _. apply effects_bind_Forall.
    { now apply run_effects_no_save with (p := p). }
    intros r _. apply effects_ret_Forall.
  - intros Hfirst.
    destruct (outcome (SupervisedTrainer_init e a)) as [t|err] eqn:Hok;
      [exfalso|now exists err].
    unfold SupervisedTrainer_init in Hok.
    apply outcome_bind_Ok_inv in Hok as (self & Hbase & Hok).
    apply outcome_bind_Ok_inv in Hok as (ds & _ & Hok).
    apply outcome_bind_Ok_inv in Hok as (m & _ & Hok).
    apply outcome_bind_Ok_inv in Hok as (r & Hrun & _).
    apply Trainer_init_model in Hbase as (_ & _ & Hfw).
    revert Hrun. apply run_save_path_given_fails with (p := p); try assumption.
    rewrite Hfw. destruct Hfirst as [-> | [-> ->]]; reflexivity.
Qed.

(** The default path: with [save_path] left to [None], the first worker
    writes the model at ['./saved_model/'], and no other worker writes. *)
Lemma run_save_model_default self a net :
  save a = true ->
  save_path a = None ->
  run_save_model self a (ModelNet net) =
  if self_running_on_first_worker self
  then (Ok tt, [Makedirs "./saved_model/"; ModelSave "./saved_model/"])
  else (Ok tt, []).
Proof.
  intros Hsave Hsp. unfold run_save_model. rewrite Hsave, Hsp.
  now destruct (self_running_on_first_worker self).
Qed.

End SavingTheModel.

(** The end-to-end scenario of the specification with [save_path='./out/']:
    fitting and evaluation are done, then the construction raises on the
    unassigned local [save_path] and nothing is saved. *)
Lemma given_save_path_example :
  let a := TrainingLogic.example_args_with "resnet_spc" "GPU" 4 (Some 16) None
             (Some "./out/") in
  let run := TrainingLogic.SupervisedTrainer_init TrainingLogic.example_env a in
  outcome run = Raise (UnboundLocalError "save_path")
  /\ TrainingLogic.fit_called (effects run) = true
  /\ TrainingLogic.saved_models (effects run) = [].
Proof. vm_compute. repeat split. Qed.

(** The same scenario with the default path: the model is saved at
    ['./saved_model/']. *)
Lemma default_save_path_example :
  let run := TrainingLogic.SupervisedTrainer_init TrainingLogic.example_env
               TrainingLogic.example_args in
  (exists t, outcome run = Ok t)
  /\ TrainingLogic.saved_models (effects run) = ["./saved_model/"].
Proof. vm_compute. split; [eexists; reflexivity|reflexivity]. Qed.

(** The failing input of C2, through the theorem. *)
Lemma given_save_path_is_never_written_example :
  TrainingLogic.saved_models
    (effects (TrainingLogic.SupervisedTrainer_init TrainingLogic.example_env
                (TrainingLogic.example_args_with "resnet_spc" "GPU" 4 (Some 16) None
                   (Some "./out/")))) = []
  /\ exists err,
       outcome (TrainingLogic.SupervisedTrainer_init TrainingLogic.example_env
                  (TrainingLogic.example_args_with "resnet_spc" "GPU" 4 (Some 16) None
                     (Some "./out/")))
       = Raise err.
Proof.
  destruct (given_save_path_is_never_written (U := TrainingLogic.example_utils)
              TrainingLogic.example_env
              (TrainingLogic.example_args_with "resnet_spc" "GPU" 4 (Some 16) None
                 (Some "./out/"))
              "./out/" eq_refl eq_refl) as [Hnone Hraise].
  split; [exact Hnone|].
  apply Hraise. right. split; reflexivity.
Defined.

Section LearningRate.
Import TrainingLogic.
Context {U : Utils}.

(** C6.  With a float learning rate [r] and a process group of [g]
    workers, [run] compiles the network with exactly one optimizer, the
    distributed wrapper of [Adam] with learning rate [r * g] (the binary64
    product), and fits the network with it; when [run] completes this is the
    optimizer it leaves on [self]. *)
Theorem float_learning_rate_is_scaled_by_group_size e self a ds net r :
  learning_rate a = LrFloat r ->
  let scaled :=
    DistributedOptimizer
      (Adam (LrConstFloat (r * float_of_int (Zpos (hvd_size e)))%float)) in
  compiled_optimizers (effects (run e self a ds (ModelNet net))) = [scaled]
  /\ fit_called (effects (run e self a ds (ModelNet net))) = true
  /\ (forall attrs, outcome (run e self a ds (ModelNet net)) = Ok attrs ->
                    self_optimizer attrs = scaled).
Proof.
  intros Hlr scaled. subst scaled. unfold run, run_save_model. rewrite Hlr.
  destruct ds as [[ds_train ds_val] ds_test].
  cbn [setup_learning_rate].
  destruct (savecheckpoint_path a) as [cp|];
    destruct (steps_per_epoch a) as [steps|];
    destruct (String.eqb (plot a) "plt");
    destruct (self_running_on_first_worker self);
    destruct (show_plot a);
    destruct (save a);
    destruct (save_path a) as [sp|];
    cbn; (split; [reflexivity|split; [reflexivity|]]);
    intros attrs Hattrs; try discriminate Hattrs;
    now injection Hattrs as <-.
Qed.

End LearningRate.

(** The example of the specification: a rate of 1e-4 on four workers is
    applied as 4e-4. *)
Lemma float_learning_rate_example :
  TrainingLogic.compiled_optimizers
    (effects (TrainingLogic.run TrainingLogic.example_env
                TrainingLogic.example_trainer TrainingLogic.example_args
                TrainingLogic.example_datagens
                (TrainingLogic.ModelNet TrainingLogic.example_network)))
  = [TrainingLogic.DistributedOptimizer
       (TrainingLogic.Adam (TrainingLogic.LrConstFloat 4e-4%float))].
Proof.
  exact (proj1 (float_learning_rate_is_scaled_by_group_size
                  (U := TrainingLogic.example_utils) TrainingLogic.example_env
                  TrainingLogic.example_trainer TrainingLogic.example_args
                  TrainingLogic.example_datagens TrainingLogic.example_network
                  1e-4%float eq_refl)).
Defined.

Section ErrorMessages.
Import TrainingLogic.
Context {U : Utils}.

Lemma choose_loss_raises loss err :
  choose_loss loss = Raise err -> err = ValueError "`loss` not recognized".
Proof.
  unfold choose_loss.
  repeat match goal with
         | |- context [if ?c then _ else _] => destruct c
         end; try discriminate; now intros [= <-].
Qed.

Lemma time_window_given_msg_includes tw :
  includes ("time_window=" ++ str_of_int tw) (time_window_given_msg tw) = true.
Proof.
  change (time_window_given_msg tw)
    with ("``" ++ ("time_window=" ++ str_of_int tw)
          ++ "``, choose a model that handles samples with a temporal dimension")%string.
  apply includes_middle.
Qed.

Lemma time_window_missing_msg_includes name :
  includes ("model=" ++ name) (time_window_missing_msg name) = true.
Proof.
  change (time_window_missing_msg name)
    with ("``" ++ ("model=" ++ name)
          ++ "``, the argument ``time_window`` must be a postive integer")%string.
  apply includes_middle.
Qed.

Lemma time_window_missing_msg_names_parameter name :
  includes "time_window" (time_window_missing_msg name) = true.
Proof.
  change (time_window_missing_msg name)
    with (("``model=" ++ name)
          ++ "``, the argument ``time_window`` must be a postive integer")%string.
  apply includes_app_r. reflexivity.
Qed.

(** C9, amended.  Every [ValueError] that the construction raises comes from
    one of six checks, and its message names the offending parameter: [device],
    the architecture (whose message is written by [checkarg_model]), [loss],
    [patch_size] and [scale], or [time_window].  Only the two [time_window]
    checks put a received value in the message: the value of [time_window]
    when it is given with an architecture that is not recurrent, the value of
    [model] when a recurrent architecture comes without [time_window]. *)
Theorem configuration_errors_name_the_parameter e a msg :
  outcome (SupervisedTrainer_init e a) = Raise (ValueError msg) ->
  (msg = "device not recognized" /\ includes "device" msg = true)
  \/ (str_in (model a) (match model_list a with None => MODELS | Some l => l end) = false
      /\ msg = checkarg_model_msg (model a)
                 (match model_list a with None => MODELS | Some l => l end))
  \/ (msg = "`loss` not recognized" /\ includes "loss" msg = true)
  \/ (msg = patch_size_msg
      /\ includes "patch_size" msg = true /\ includes "scale" msg = true)
  \/ (exists tw, time_window a = Some tw
                 /\ includes ("time_window=" ++ str_of_int tw) msg = true)
  \/ (time_window a = None
      /\ includes "time_window" msg = true
      /\ includes ("model=" ++ model a) msg = true).
Proof.
  intros Hraise. unfold SupervisedTrainer_init in Hraise.
  apply outcome_bind_Raise_inv in Hraise as [Hbase | (self & Hbase & Hraise)].
  { rewrite Trainer_init_outcome in Hbase.
    destruct (negb _); [injection Hbase as <-; left; now split|].
    unfold checkarg_model in Hbase.
    destruct (str_in (model a) _) eqn:Hin.
    - destruct (choose_loss (loss a)) as [lossf|err] eqn:Hloss; [discriminate|].
      apply choose_loss_raises in Hloss as ->. injection Hbase as <-.
      do 2 right. left. now split.
    - injection Hbase as <-. right. left. now split. }
  apply Trainer_init_model in Hbase as (Hname & _ & _).
  apply outcome_bind_Raise_inv in Hraise as [Hsetup | (ds & _ & Hraise)].
  { assert (patch_size a = None \/ scale a <> 0) as Hdom.
    { destruct (patch_size a) as [p|] eqn:Hp; [right|now left].
      intros Hzero. unfold setup_datagen in Hsetup.
      rewrite Hp, Hzero in Hsetup. discriminate Hsetup. }
    destruct (setup_datagen_raises self a _ Hdom Hsetup)
      as [Hmsg | [(tw & Htw & Hmsg) | (Htw & Hmsg)]]; injection Hmsg as ->.
    - do 3 right. left. now repeat split.
    - do 4 right. left. exists tw. split; [exact Htw|].
      apply time_window_given_msg_includes.
    - do 5 right. rewrite Hname. repeat split; [exact Htw| |].
      + apply time_window_missing_msg_names_parameter.
      + apply time_window_missing_msg_includes. }
  apply outcome_bind_Raise_inv in Hraise as [Hmodel | (m & _ & Hraise)].
  { now apply setup_model_raises in Hmodel. }
  apply outcome_bind_Raise_inv in Hraise as [Hrun | (r & _ & Hraise)].
  { now apply run_raises in Hrun. }
  discriminate Hraise.
Qed.

End ErrorMessages.

(** C9, as stated, fails: the error for an unrecognized device does not
    contain the received value. *)
Lemma device_error_omits_received_value :
  outcome (TrainingLogic.SupervisedTrainer_init TrainingLogic.example_env
             (TrainingLogic.example_args_with "resnet_spc" "TPU" 4 (Some 16) None None))
  = Raise (ValueError "device not recognized")
  /\ includes "TPU" "device not recognized" = false.
Proof. vm_compute. split; reflexivity. Qed.

(** The amended C9 on a call that gives [time_window=3] to [resnet_spc]. *)
Lemma configuration_errors_name_the_parameter_example :
  exists tw,
    TrainingLogic.time_window
      (TrainingLogic.example_args_with "resnet_spc" "GPU" 4 (Some 16) (Some 3) None)
    = Some tw
    /\ includes ("time_window=" ++ str_of_int tw)
                (TrainingLogic.time_window_given_msg 3) = true.
Proof.
  destruct (configuration_errors_name_the_parameter
              (U := TrainingLogic.example_utils) TrainingLogic.example_env
              (TrainingLogic.example_args_with "resnet_spc" "GPU" 4 (Some 16) (Some 3) None)
              (TrainingLogic.time_window_given_msg 3) eq_refl)
    as [[H _] | [[H _] | [[H _] | [[H _] | [H | [H _]]]]]];
    try discriminate H.
  exact H.
Defined.

(** C4 on patches of 18 with scale 4. *)
Lemma patch_size_not_multiple_of_scale_example :
  exists err,
    outcome (TrainingLogic.SupervisedTrainer_init TrainingLogic.example_env
               (TrainingLogic.example_args_with "resnet_spc" "GPU" 4 (Some 18) None None))
    = Raise err
    /\ TrainingLogic.is_ConfigurationError err = true
    /\ TrainingLogic.training_started
         (effects (TrainingLogic.SupervisedTrainer_init TrainingLogic.example_env
                     (TrainingLogic.example_args_with "resnet_spc" "GPU" 4 (Some 18)
                        None None))) = false.
Proof.
  apply (patch_size_not_multiple_of_scale_raises
           (U := TrainingLogic.example_utils) TrainingLogic.example_env
           (TrainingLogic.example_args_with "resnet_spc" "GPU" 4 (Some 18) None None)
           18 2).
  - reflexivity.
  - reflexivity.
  - discriminate.
Defined.



(** The messages of the two [time_window] checks, as Python formats them. *)
Lemma time_window_messages_example :
  outcome (TrainingLogic.SupervisedTrainer_init TrainingLogic.example_env
             (TrainingLogic.example_args_with "resnet_spc" "GPU" 4 (Some 16) (Some 3) None))
  = Raise (ValueError
      "``time_window=3``, choose a model that handles samples with a temporal dimension")
  /\ outcome (TrainingLogic.SupervisedTrainer_init TrainingLogic.example_env
                (TrainingLogic.example_args_with "recurrent_resnet_spc" "GPU" 4
                   (Some 16) None None))
     = Raise (ValueError
         "``model=recurrent_resnet_spc``, the argument ``time_window`` must be a postive integer").
Proof. vm_compute. split; reflexivity. Qed.

(* ===================================================================== *)
(** * cgan.py: the losses and the training step *)
(* ===================================================================== *)

Section GeneratorLoss.
Import Cgan.
Context {F : Framework}.

(** [train_step] always completes; its effects are the call and the four
    summaries, and the losses it returns are those of the forward passes on
    the cast arrays. *)
Lemma train_step_completes lr_array hr_array st epoch :
  exists st',
    train_step lr_array hr_array st epoch =
    (Ok (st', forward_losses (cast_newaxis lr_array) (cast_newaxis hr_array)
                (generator st) (discriminator st)),
     TrainStepCall lr_array hr_array epoch ::
     map (fun p => SummaryScalar (fst p) (snd p) epoch)
       (let '(gen_total_loss, gen_gan_loss, gen_l1_loss, disc_loss) :=
          forward_losses (cast_newaxis lr_array) (cast_newaxis hr_array)
            (generator st) (discriminator st) in
        [("gen_total_loss", gen_total_loss); ("gen_gan_loss", gen_gan_loss);
         ("gen_l1_loss", gen_l1_loss); ("disc_loss", disc_loss)])).
Proof.
  unfold train_step.
  destruct (forward_losses (cast_newaxis lr_array) (cast_newaxis hr_array)
              (generator st) (discriminator st)) as [[[gt gg] gl] dl].
  destruct (apply_gradients (generator_optimizer st) _ (generator st)) as [gopt gw].
  destruct (apply_gradients (discriminator_optimizer st) _ (discriminator st))
    as [dopt dw].
  eexists. reflexivity.
Qed.

(** C8.  The total loss that [generator_loss] returns is the adversarial term
    (binary cross-entropy between the verdict [d] and an all-ones target) plus
    [lambda_scaling_factor] times the mean absolute error between the
    generated image [g] and the target [t]; the factor is 100 when it is left
    out, and [train_step] leaves it out. *)
Theorem generator_loss_is_adversarial_plus_weighted_l1 :
  (forall d g t lambda,
      generator_loss d g t (Some lambda)
      = (spec_generator_loss d g t lambda, adversarial_term d, mean_absolute_error g t))
  /\ (forall d g t,
      generator_loss d g t None
      = (spec_generator_loss d g t 100, adversarial_term d, mean_absolute_error g t))
  /\ (forall lr_array hr_array st epoch,
      exists st' l,
        outcome (train_step lr_array hr_array st epoch) = Ok (st', l)
        /\ gen_total_of l
           = let lr := cast_newaxis lr_array in
             let generated := generator_call (generator st) lr in
             spec_generator_loss (discriminator_call (discriminator st) lr generated)
                                 generated (cast_newaxis hr_array) 100).
Proof.
  split; [reflexivity|]. split; [reflexivity|].
  intros lr_array hr_array st epoch.
  destruct (train_step_completes lr_array hr_array st epoch) as (st' & Hstep).
  rewrite Hstep. eexists. eexists. split; reflexivity.
Qed.

End GeneratorLoss.

(* ===================================================================== *)
(** * cgan.py: the training loop *)
(* ===================================================================== *)

Section TrainingLoop.
Import Cgan.
Context {F : Framework}.

Lemma getitem_nat {A} (l : list A) (k : nat) (x : A) :
  nth_error l k = Some x -> getitem l (Z.of_nat k) = Ok x.
Proof.
  intros Hx. unfold getitem.
  assert ((Z.of_nat k <? 0) = false) as Hk by (apply Z.ltb_ge; lia).
  cbv zeta. rewrite !Hk. now rewrite Nat2Z.id, Hx.
Qed.

Lemma firstn_skipn_cons {A} (l : list A) (k m : nat) (x : A) :
  nth_error l k = Some x ->
  firstn (S m) (skipn k l) = x :: firstn m (skipn (S k) l).
Proof.
  revert l. induction k as [|k IH]; intros [|y l] Hx; try discriminate.
  - now injection Hx as ->.
  - now apply IH.
Qed.

Lemma train_step_calls_app (t1 t2 : list event) :
  train_step_calls (t1 ++ t2) = train_step_calls t1 ++ train_step_calls t2.
Proof. apply flat_map_app. Qed.

Lemma saves_after_from_silent (t1 t2 : list event) (n : Z) :
  forallb silent t1 = true ->
  saves_after_from n (t1 ++ t2) = saves_after_from n t2.
Proof.
  induction t1 as [|ev t1 IH]; cbn; [reflexivity|].
  intros Hs. apply andb_true_iff in Hs as [Hev Ht1].
  destruct ev; try discriminate Hev; now apply IH.
Qed.

(** One pass of the body of the loop over the samples: one call of
    [train_step], on the arrays made from the sample. *)
Lemma train_one_sample_completes a epoch (k : nat) s x :
  nth_error (x_train a) k = Some x ->
  generator_bound s ->
  exists s' tr,
    train_one_sample a epoch (Z.of_nat k) s = (Ok s', tr)
    /\ generator_bound s'
    /\ (exists ls, l_losses s' = Some ls)
    /\ gentotal s' = gentotal s /\ gengan s' = gengan s
    /\ genl1 s' = genl1 s /\ disc s' = disc s
    /\ train_step_calls tr = [call_on a epoch x]
    /\ forallb silent tr = true.
Proof.
  intros Hx [g Hg]. unfold train_one_sample, call_on.
  rewrite (getitem_nat _ _ _ Hx), Hg.
  destruct ((Z.of_nat k + 1) mod 100 =? 0);
    cbn [when emit ret bind lift read_local app];
    destruct (create_pair_hr_lr x (scale a) (topography a) (landocean a)
                (patch_size a) (model a) (interpolation a)) as [hr_array lr_array];
    destruct (train_step_completes lr_array hr_array
                {| generator := g;
                   discriminator := l_discriminator s;
                   generator_optimizer := l_generator_optimizer s;
                   discriminator_optimizer := l_discriminator_optimizer s |} epoch)
      as (st' & Hstep);
    rewrite Hstep;
    destruct (forward_losses _ _ _ _) as [[[gt gg] gl] dl];
    (eexists; eexists; split; [reflexivity|]);
    cbn; repeat split; eauto; now eexists.
Qed.

(** The loop over the samples [k, k+1, ..., k+m-1]. *)
Lemma sample_loop_completes a epoch (m : nat) : forall (k : nat) s,
  (k + m <= List.length (x_train a))%nat ->
  generator_bound s ->
  exists s' tr,
    for_each (map Z.of_nat (seq k m)) (train_one_sample a epoch) s = (Ok s', tr)
    /\ generator_bound s'
    /\ ((0 < m)%nat -> exists ls, l_losses s' = Some ls)
    /\ gentotal s' = gentotal s /\ gengan s' = gengan s
    /\ genl1 s' = genl1 s /\ disc s' = disc s
    /\ train_step_calls tr = map (call_on a epoch) (firstn m (skipn k (x_train a)))
    /\ forallb silent tr = true.
Proof.
  induction m as [|m IH]; intros k s Hlen Hgen.
  - exists s, []. cbn. repeat split; auto. lia.
  - destruct (nth_error (x_train a) k) as [x|] eqn:Hx;
      [|apply nth_error_None in Hx; lia].
    destruct (train_one_sample_completes a epoch k s x Hx Hgen)
      as (s1 & tr1 & Hstep & Hgen1 & Hls1 & Ha & Hb & Hc & Hd & Hcalls1 & Hsilent1).
    destruct (IH (S k) s1 ltac:(lia) Hgen1)
      as (s2 & tr2 & Hloop & Hgen2 & Hls2 & Ha2 & Hb2 & Hc2 & Hd2 & Hcalls2 & Hsilent2).
    exists s2, (tr1 ++ tr2).
    split.
    { cbn [seq map for_each]. rewrite (bind_Ok _ _ _ _ Hstep), Hloop. reflexivity. }
    split; [exact Hgen2|].
    split.
    { intros _. destruct m as [|m']; [|apply Hls2; lia].
      cbn in Hloop. injection Hloop as <- _. exact Hls1. }
    repeat split; try congruence.
    + rewrite train_step_calls_app, Hcalls1, Hcalls2.
      now rewrite (firstn_skipn_cons _ _ _ _ Hx).
    + rewrite forallb_app, Hsilent1, Hsilent2. reflexivity.
Qed.

Lemma epoch_trace epoch (tr1 tail : list event) :
  forallb silent tr1 = true ->
  train_step_calls (PrintEpoch epoch :: tr1 ++ tail)
  = train_step_calls tr1 ++ train_step_calls tail
  /\ (forall n rest,
        saves_after_from n ((PrintEpoch epoch :: tr1 ++ tail) ++ rest)
        = saves_after_from (n + 1) (tail ++ rest)).
Proof.
  intros Hsilent. split.
  - change (PrintEpoch epoch :: tr1 ++ tail) with ([PrintEpoch epoch] ++ tr1 ++ tail).
    now rewrite !train_step_calls_app.
  - intros n rest. cbn [app saves_after_from].
    rewrite <- app_assoc. now apply saves_after_from_silent.
Qed.

(** One epoch, when the cadence test can be evaluated and the checkpoint
    exists whenever a cadence is given: ten calls of [train_step] on the first
    ten samples, and one checkpoint when the epoch is on the cadence. *)
Lemma train_one_epoch_completes a checkpoint epoch s :
  (10 <= List.length (x_train a))%nat ->
  generator_bound s ->
  (forall f, checkpoints_frequency a = Some f ->
             f <> 0 /\ exists p, checkpoint = Some p) ->
  exists s' tr,
    train_one_epoch a checkpoint epoch s = (Ok s', tr)
    /\ generator_bound s'
    /\ train_step_calls tr = calls_on_first_ten a epoch
    /\ (forall n rest,
          saves_after_from n (tr ++ rest)
          = (if periodic (checkpoints_frequency a) epoch then [n + 1] else [])
            ++ saves_after_from (n + 1) rest).
Proof.
  intros Hlen Hgen Hfreq.
  destruct (sample_loop_completes a epoch 10 0 s Hlen Hgen)
    as (s1 & tr1 & Hloop & [g1 Hg1] & Hls & _ & _ & _ & _ & Hcalls & Hsilent).
  destruct (Hls ltac:(lia)) as [[[[gt gg] gl] dl] Hlosses].
  unfold train_one_epoch.
  change (range 10) with (map Z.of_nat (seq 0 10)).
  cbn [emit bind]. rewrite Hloop.
  cbn [emit bind lift read_local ret app]. rewrite Hlosses.
  cbn [emit bind lift read_local ret app].
  unfold periodic, calls_on_first_ten.
  destruct (checkpoints_frequency a) as [f|] eqn:Hf.
  - destruct (Hfreq f eq_refl) as [Hnz [p ->]].
    rewrite (py_mod_Ok _ _ Hnz).
    cbn [emit bind lift read_local ret app].
    destruct ((epoch + 1) mod f =? 0).
    + unfold checkpoint_save. cbn [l_generator]. rewrite Hg1.
      cbn [emit bind lift read_local ret app].
      eexists. eexists. split; [reflexivity|].
      split; [exists g1; first [exact Hg1|reflexivity]|].
      match goal with
      | |- context [PrintEpoch epoch :: tr1 ++ ?tail] =>
          destruct (epoch_trace epoch tr1 tail Hsilent) as [Hc Hs]
      end.
      split; [rewrite Hc, Hcalls; cbn; now rewrite app_nil_r|].
      intros n rest. now rewrite Hs.
    + cbn [emit bind lift read_local ret app].
      eexists. eexists. split; [reflexivity|].
      split; [exists g1; first [exact Hg1|reflexivity]|].
      match goal with
      | |- context [PrintEpoch epoch :: tr1 ++ ?tail] =>
          destruct (epoch_trace epoch tr1 tail Hsilent) as [Hc Hs]
      end.
      split; [rewrite Hc, Hcalls; cbn; now rewrite app_nil_r|].
      intros n rest. now rewrite Hs.
  - cbn [emit bind lift read_local ret app].
    eexists. eexists. split; [reflexivity|].
    split; [exists g1; first [exact Hg1|reflexivity]|].
    match goal with
    | |- context [PrintEpoch epoch :: tr1 ++ ?tail] =>
        destruct (epoch_trace epoch tr1 tail Hsilent) as [Hc Hs]
    end.
    split; [rewrite Hc, Hcalls; cbn; now rewrite app_nil_r|].
    intros n rest. now rewrite Hs.
Qed.

(** One epoch with [checkpoints_frequency=0]: the ten calls are made, then the
    cadence test divides by zero. *)
Lemma train_one_epoch_zero_frequency a checkpoint epoch s :
  (10 <= List.length (x_train a))%nat ->
  generator_bound s ->
  checkpoints_frequency a = Some 0 ->
  exists tr,
    train_one_epoch a checkpoint epoch s = (Raise ZeroDivisionError, tr)
    /\ train_step_calls tr = calls_on_first_ten a epoch.
Proof.
  intros Hlen Hgen Hf.
  destruct (sample_loop_completes a epoch 10 0 s Hlen Hgen)
    as (s1 & tr1 & Hloop & [g1 Hg1] & Hls & _ & _ & _ & _ & Hcalls & Hsilent).
  destruct (Hls ltac:(lia)) as [[[[gt gg] gl] dl] Hlosses].
  unfold train_one_epoch.
  change (range 10) with (map Z.of_nat (seq 0 10)).
  cbn [emit bind]. rewrite Hloop.
  cbn [emit bind lift read_local ret app]. rewrite Hlosses.
  cbn [emit bind lift read_local ret app]. rewrite Hf.
  cbn [emit bind lift read_local ret app py_mod Z.eqb].
  eexists. split; [reflexivity|].
  match goal with
  | |- context [PrintEpoch epoch :: tr1 ++ ?tail] =>
      destruct (epoch_trace epoch tr1 tail Hsilent) as [Hc _]
  end.
  unfold calls_on_first_ten. rewrite Hc, Hcalls. cbn. now rewrite app_nil_r.
Qed.

(** The loop over the epochs [k, k+1, ..., k+m-1], entered with [k] epochs
    already counted. *)
Lemma epoch_loop_completes a checkpoint (m : nat) : forall (k : nat) s,
  (10 <= List.length (x_train a))%nat ->
  generator_bound s ->
  (forall f, checkpoints_frequency a = Some f ->
             f <> 0 /\ exists p, checkpoint = Some p) ->
  exists s' tr,
    for_each (map Z.of_nat (seq k m)) (train_one_epoch a checkpoint) s = (Ok s', tr)
    /\ generator_bound s'
    /\ train_step_calls tr
       = flat_map (calls_on_first_ten a) (map Z.of_nat (seq k m))
    /\ (forall rest,
          saves_after_from (Z.of_nat k) (tr ++ rest)
          = map (fun e => e + 1)
              (filter (periodic (checkpoints_frequency a)) (map Z.of_nat (seq k m)))
            ++ saves_after_from (Z.of_nat (k + m)) rest).
Proof.
  induction m as [|m IH]; intros k s Hlen Hgen Hfreq.
  - exists s, []. cbn. repeat split; auto.
    intros rest. now rewrite Nat.add_0_r.
  - destruct (train_one_epoch_completes a checkpoint (Z.of_nat k) s Hlen Hgen Hfreq)
      as (s1 & tr1 & Hepoch & Hgen1 & Hcalls1 & Hsaves1).
    destruct (IH (S k) s1 Hlen Hgen1 Hfreq)
      as (s2 & tr2 & Hloop & Hgen2 & Hcalls2 & Hsaves2).
    exists s2, (tr1 ++ tr2).
    split.
    { cbn [seq map for_each]. rewrite (bind_Ok _ _ _ _ Hepoch), Hloop. reflexivity. }
    split; [exact Hgen2|].
    split.
    { rewrite train_step_calls_app, Hcalls1, Hcalls2. reflexivity. }
    intros rest. rewrite <- app_assoc, Hsaves1.
    replace (Z.of_nat k + 1) with (Z.of_nat (S k)) by lia.
    rewrite Hsaves2. replace (S k + m)%nat with (k + S m)%nat by lia.
    cbn [seq map filter].
    destruct (periodic (checkpoints_frequency a) (Z.of_nat k)); cbn [map app];
      [f_equal; lia|reflexivity].
Qed.

Lemma filter_map_swap {A B} (p : B -> bool) (g : A -> B) (l : list A) :
  filter p (map g l) = map g (filter (fun x => p (g x)) l).
Proof.
  induction l as [|x l IH]; cbn; [reflexivity|].
  rewrite IH. now destruct (p (g x)).
Qed.

(** The local [generator] is assigned for the two known models. *)
Lemma generator_assigned (name : string) (w1 w2 : Weights) :
  name = "rspc" \/ name = "rint" ->
  exists g,
    (if String.eqb name "rspc" then Some w1
     else if String.eqb name "rint" then Some w2 else None) = Some g.
Proof. intros [-> | ->]; eexists; reflexivity. Qed.

Ltac assign_generator Hmodel g0 Hg0 :=
  match goal with
  | |- context [if String.eqb (model ?a) "rspc" then Some ?w1 else _] =>
      match goal with
      | |- context [if String.eqb (model a) "rint" then Some ?w2 else _] =>
          destruct (generator_assigned (model a) w1 w2 Hmodel) as [g0 Hg0]
      end
  end;
  cbv zeta; rewrite Hg0.

Ltac run_monad := cbn [emit bind lift read_local ret app].

(** With a cadence [f] other than zero, [training_cgan] completes: it saves a
    checkpoint after every epoch whose 1-based index is a multiple of [f],
    and one more after the loop. *)
Lemma training_cgan_with_frequency a f :
  (10 <= List.length (x_train a))%nat ->
  model a = "rspc" \/ model a = "rint" ->
  checkpoints_frequency a = Some f ->
  f <> 0 ->
  exists g tr,
    training_cgan a = (Ok g, tr)
    /\ saves_after tr = multiples_upto f (epochs a) ++ [Z.max 0 (epochs a)]
    /\ train_step_calls tr = flat_map (calls_on_first_ten a) (range (epochs a)).
Proof.
  intros Hlen Hmodel Hf Hnz. unfold training_cgan. rewrite Hf.
  assign_generator Hmodel g0 Hg0. run_monad. unfold range.
  match goal with
  | |- context [for_each _ (train_one_epoch a ?ck) ?s0] =>
      destruct (epoch_loop_completes a ck (Z.to_nat (epochs a)) 0 s0 Hlen)
        as (s' & tr & Hloop & [g' Hg'] & Hcalls & Hsaves)
  end.
  { now exists g0. }
  { intros f' Hf'. rewrite Hf in Hf'. injection Hf' as <-.
    split; [exact Hnz|]. now eexists. }
  rewrite Hloop. run_monad. unfold checkpoint_save. rewrite Hg'. run_monad.
  eexists. eexists. split; [reflexivity|]. split.
  - unfold saves_after. cbn [saves_after_from].
    change 0 with (Z.of_nat 0) at 1. rewrite Hsaves, Hf.
    unfold multiples_upto, range. rewrite !filter_map_swap.
    cbn [saves_after_from periodic]. f_equal. f_equal. lia.
  - match goal with
    | |- context [?ev :: tr ++ ?rest] =>
        change (ev :: tr ++ rest) with ([ev] ++ tr ++ rest)
    end.
    rewrite !train_step_calls_app, Hcalls. cbn. now rewrite app_nil_r.
Qed.

(** Without a cadence, every epoch runs and then the final
    [checkpoint.save] reads the local [checkpoint], which was never assigned:
    [training_cgan] raises and no checkpoint has been written. *)
Lemma training_cgan_without_frequency a :
  (10 <= List.length (x_train a))%nat ->
  model a = "rspc" \/ model a = "rint" ->
  checkpoints_frequency a = None ->
  exists tr,
    training_cgan a = (Raise (UnboundLocalError "checkpoint"), tr)
    /\ saves_after tr = []
    /\ train_step_calls tr = flat_map (calls_on_first_ten a) (range (epochs a)).
Proof.
  intros Hlen Hmodel Hf. unfold training_cgan. rewrite Hf.
  assign_generator Hmodel g0 Hg0. run_monad. unfold range.
  match goal with
  | |- context [for_each _ (train_one_epoch a ?ck) ?s0] =>
      destruct (epoch_loop_completes a ck (Z.to_nat (epochs a)) 0 s0 Hlen)
        as (s' & tr & Hloop & [g' Hg'] & Hcalls & Hsaves)
  end.
  { now exists g0. }
  { intros f' Hf'. rewrite Hf in Hf'. discriminate Hf'. }
  rewrite Hloop. run_monad. unfold checkpoint_save. run_monad.
  eexists. split; [reflexivity|]. split.
  - unfold saves_after. cbn [saves_after_from].
    change 0 with (Z.of_nat 0) at 1. rewrite Hsaves, Hf.
    assert (forall l, filter (periodic None) l = []) as ->
      by (induction l; auto).
    reflexivity.
  - match goal with
    | |- context [?ev :: tr ++ ?rest] =>
        change (ev :: tr ++ rest) with ([ev] ++ tr ++ rest)
    end.
    rewrite !train_step_calls_app, Hcalls. cbn. now rewrite app_nil_r.
Qed.


End TrainingLoop.

Section TrainingCgan.
Import Cgan.
Context {F : Framework}.



(** C1 (what the code does without a cadence).  With
    [checkpoints_frequency=None] all the epochs run, no checkpoint is written,
    and the final save raises [UnboundLocalError] on the local [checkpoint]:
    the final snapshot does not occur. *)
Theorem final_save_without_frequency_raises a :
  (10 <= List.length (x_train a))%nat ->
  model a = "rspc" \/ model a = "rint" ->
  checkpoints_frequency a = None ->
  outcome (training_cgan a) = Raise (UnboundLocalError "checkpoint")
  /\ saves_after (effects (training_cgan a)) = []
  /\ train_step_calls (effects (training_cgan a))
     = flat_map (calls_on_first_ten a) (range (epochs a)).
Proof.
  intros Hlen Hmodel Hf.
  destruct (training_cgan_without_frequency a Hlen Hmodel Hf)
    as (tr & -> & Hsaves & Hcalls).
  now repeat split.
Qed.


End TrainingCgan.

(** The example of the specification: a cadence of 5 over 12 epochs saves
    after epochs 5 and 10, and once more after the loop (epoch 12). *)
Lemma checkpoints_5_12_example :
  exists g,
    outcome (Cgan.training_cgan (Cgan.example_cgan_args (Some 5) 12 "rspc")) = Ok g
  /\ Cgan.saves_after
       (effects (Cgan.training_cgan (Cgan.example_cgan_args (Some 5) 12 "rspc")))
     = [5; 10; 12].
Proof.
  destruct (training_cgan_with_frequency (F := Cgan.example_framework)
              (Cgan.example_cgan_args (Some 5) 12 "rspc") 5)
    as (g & tr & Hrun & Hsaves & _).
  - cbn. lia.
  - now left.
  - reflexivity.
  - discriminate.
  - exists g. rewrite Hrun. split; [reflexivity|exact Hsaves].
Qed.

(** The failing input of C1: twelve epochs without a cadence. *)
Lemma final_save_without_frequency_example :
  outcome (Cgan.training_cgan (Cgan.example_cgan_args None 12 "rspc"))
  = Raise (UnboundLocalError "checkpoint")
  /\ Cgan.saves_after
       (effects (Cgan.training_cgan (Cgan.example_cgan_args None 12 "rspc"))) = []
  /\ Cgan.train_step_calls
       (effects (Cgan.training_cgan (Cgan.example_cgan_args None 12 "rspc")))
     = flat_map (Cgan.calls_on_first_ten (Cgan.example_cgan_args None 12 "rspc"))
                (range (Cgan.epochs (Cgan.example_cgan_args None 12 "rspc"))).
Proof.
  apply (final_save_without_frequency_raises (F := Cgan.example_framework)
           (Cgan.example_cgan_args None 12 "rspc")).
  - cbn. lia.
  - left. reflexivity.
  - reflexivity.
Defined.



(** The same run, evaluated: twenty calls, samples 0 to 9 in each of the two
    epochs, whatever the twelve samples given. *)
Lemma train_step_calls_example :
  map (fun c => (fst (fst c), snd c))
      (Cgan.train_step_calls
         (effects (Cgan.training_cgan (Cgan.example_cgan_args (Some 5) 2 "rspc"))))
  = map (fun i => (i, 0)) (range 10) ++ map (fun i => (i, 1)) (range 10).
Proof. vm_compute. reflexivity. Qed.

(* ===================================================================== *)
(** * Further properties of the supervised trainer *)
(* ===================================================================== *)

Section MonadLoops.
Context {E : Type}.

Lemma bind_Ok_inv {A B} (m : M E A) (k : A -> M E B) b t :
  bind m k = (Ok b, t) ->
  exists a t1 t2, m = (Ok a, t1) /\ k a = (Ok b, t2) /\ t = t1 ++ t2.
Proof.
  destruct m as [[a|e] t1]; cbn; [|discriminate].
  destruct (k a) as [r t2] eqn:Hk. intros [= -> <-].
  now exists a, t1, t2.
Qed.

Lemma for_each_app {A St} (l1 l2 : list A) (body : A -> St -> M E St) (s : St) :
  for_each (l1 ++ l2) body s = bind (for_each l1 body s) (for_each l2 body).
Proof.
  revert s. induction l1 as [|x l1 IH]; intros s; cbn [app for_each].
  - unfold ret, bind. destruct (for_each l2 body s) as [r t]. reflexivity.
  - destruct (body x s) as [[s1|e] t1]; cbn; [|reflexivity].
    rewrite IH. destruct (for_each l1 body s1) as [[s2|e] t2]; cbn; [|reflexivity].
    destruct (for_each l2 body s2) as [r t3]. now rewrite app_assoc.
Qed.

(** A property of every effect of the bodies holds of every effect of the
    loop. *)
Lemma for_each_effects_Forall {A St} (P : E -> Prop) (l : list A)
    (body : A -> St -> M E St) :
  (forall x s, In x l -> Forall P (effects (body x s))) ->
  forall s, Forall P (effects (for_each l body s)).
Proof.
  induction l as [|x l IH]; intros Hbody s; cbn [for_each].
  - constructor.
  - apply effects_bind_Forall.
    + apply Hbody. now left.
    + intros s1 _. apply IH. intros y s2 Hy. apply Hbody. now right.
Qed.

(** What a completed loop extracts from its effects, when each completed
    body contributes a list that depends on the element only. *)
Lemma for_each_Ok_flat_map {A St B} (h : E -> list B) (c : A -> list B)
    (l : list A) (body : A -> St -> M E St) :
  (forall x s s' tr, In x l -> body x s = (Ok s', tr) -> flat_map h tr = c x) ->
  forall s s' tr, for_each l body s = (Ok s', tr) ->
                  flat_map h tr = flat_map c l.
Proof.
  induction l as [|x l IH]; intros Hbody s s' tr Hloop; cbn [for_each] in Hloop.
  - injection Hloop as _ <-. reflexivity.
  - apply bind_Ok_inv in Hloop as (s1 & t1 & t2 & Hx & Hrest & ->).
    rewrite flat_map_app. cbn [flat_map]. f_equal.
    + apply (Hbody x s s1 t1); [now left|exact Hx].
    + apply (IH (fun y u u' t Hy => Hbody y u u' t (or_intror Hy)) s1 s' t2 Hrest).
Qed.

(** A measure that every completed body increases by one has increased by
    the length of the list when the loop completes. *)
Lemma for_each_Ok_count {A St} (f : St -> nat) (l : list A) (body : A -> St -> M E St) :
  (forall x s s' tr, In x l -> body x s = (Ok s', tr) -> f s' = S (f s)) ->
  forall s s' tr, for_each l body s = (Ok s', tr) ->
                  f s' = (f s + List.length l)%nat.
Proof.
  induction l as [|x l IH]; intros Hbody s s' tr Hloop; cbn [for_each] in Hloop.
  - injection Hloop as <- _. cbn. lia.
  - apply bind_Ok_inv in Hloop as (s1 & t1 & t2 & Hx & Hrest & ->).
    rewrite (IH (fun y u u' t Hy => Hbody y u u' t (or_intror Hy)) s1 s' t2 Hrest).
    rewrite (Hbody x s s1 t1 (or_introl eq_refl) Hx). cbn. lia.
Qed.

(** A quantity that every completed body preserves is the same when the
    loop completes. *)
Lemma for_each_Ok_preserved {A St V} (f : St -> V) (l : list A)
    (body : A -> St -> M E St) :
  (forall x s s' tr, In x l -> body x s = (Ok s', tr) -> f s' = f s) ->
  forall s s' tr, for_each l body s = (Ok s', tr) -> f s' = f s.
Proof.
  induction l as [|x l IH]; intros Hbody s s' tr Hloop; cbn [for_each] in Hloop.
  - now injection Hloop as <- _.
  - apply bind_Ok_inv in Hloop as (s1 & t1 & t2 & Hx & Hrest & ->).
    rewrite (IH (fun y u u' t Hy => Hbody y u u' t (or_intror Hy)) s1 s' t2 Hrest).
    apply (Hbody x s s1 t1 (or_introl eq_refl) Hx).
Qed.

End MonadLoops.

Section ConstructionOrder.
Import TrainingLogic.
Context {U : Utils}.

Lemma device_unrecognized device :
  device <> "GPU" -> device <> "CPU" ->
  String.eqb device "GPU" = false /\ String.eqb device "CPU" = false.
Proof. intros Hg Hc. split; now apply String.eqb_neq. Qed.

Lemma device_recognized device :
  device = "GPU" \/ device = "CPU" ->
  negb (String.eqb device "GPU" || String.eqb device "CPU") = false.
Proof. intros [-> | ->]; reflexivity. Qed.

(** The effects of the base constructor configure or list no device when
    the device kind is not recognized. *)
Lemma Trainer_init_unrecognized_device e name loss b device g u v ml :
  device <> "GPU" -> device <> "CPU" ->
  existsb device_setup (effects (Trainer_init e name loss b device g u v ml)) = false.
Proof.
  intros Hg Hc. destruct (device_unrecognized device Hg Hc) as [Hg' Hc'].
  unfold Trainer_init. rewrite Hg', Hc'.
  destruct (verbose_in_1_2 v); reflexivity.
Qed.

(** X1.  The configuration checks are made in a fixed order, and the first one
    that fails decides the error: the device kind, then the architecture name,
    then the loss name, then the divisibility of the patch size (which comes
    before the [time_window] check).  An unrecognized device is reported
    before any device has been configured or listed. *)
Theorem configuration_checks_are_ordered e a :
  let models := match model_list a with None => MODELS | Some l => l end in
  (device a <> "GPU" -> device a <> "CPU" ->
   outcome (SupervisedTrainer_init e a) = Raise (ValueError "device not recognized")
   /\ existsb device_setup (effects (SupervisedTrainer_init e a)) = false)
  /\ (device a = "GPU" \/ device a = "CPU" ->
      (str_in (model a) models = false ->
       outcome (SupervisedTrainer_init e a)
       = Raise (ValueError (checkarg_model_msg (model a) models)))
      /\ (str_in (model a) models = true ->
          (forall err, choose_loss (loss a) = Raise err ->
                       outcome (SupervisedTrainer_init e a) = Raise err)
          /\ (forall lossf p r,
                 choose_loss (loss a) = Ok lossf ->
                 patch_size a = Some p -> py_mod p (scale a) = Ok r -> r <> 0 ->
                 outcome (SupervisedTrainer_init e a)
                 = Raise (ValueError patch_size_msg)))).
Proof.
  intros models. split.
  - intros Hg Hc.
    assert (outcome (Trainer_init e (model a) (loss a) (batch_size a) (device a)
                       (gpu_memory_growth a) (use_multiprocessing a) (verbose a)
                       (model_list a)) = Raise (ValueError "device not recognized"))
      as Hbase.
    { rewrite Trainer_init_outcome.
      destruct (device_unrecognized _ Hg Hc) as [-> ->]. reflexivity. }
    split.
    + now apply SupervisedTrainer_init_raises_in_setup; left.
    + unfold SupervisedTrainer_init. rewrite effects_bind, Hbase, app_nil_r.
      now apply Trainer_init_unrecognized_device.
  - intros Hdev. split.
    + intros Hmodel. apply SupervisedTrainer_init_raises_in_setup. left.
      rewrite Trainer_init_outcome, (device_recognized _ Hdev).
      unfold checkarg_model. fold models. now rewrite Hmodel.
    + intros Hmodel. split.
      * intros err Hloss. apply SupervisedTrainer_init_raises_in_setup. left.
        rewrite Trainer_init_outcome, (device_recognized _ Hdev).
        unfold checkarg_model. fold models. now rewrite Hmodel, Hloss.
      * intros lossf p r Hloss Hp Hmod Hr.
        destruct (Trainer_init_succeeds e (model a) (loss a) (batch_size a) (device a)
                    (gpu_memory_growth a) (use_multiprocessing a) (verbose a)
                    (model_list a) lossf Hdev Hmodel Hloss) as (self & Hbase & _).
        apply SupervisedTrainer_init_raises_in_setup. right. exists self.
        split; [exact Hbase|].
        now apply setup_datagen_patch_mismatch with (p := p) (r := r).
Qed.

(** X2.  With [scale=0] and a patch size, on a recognized device, architecture
    and loss, the divisibility check itself fails: the construction raises
    [ZeroDivisionError], before any training. *)
Theorem zero_scale_divides_by_zero e a p lossf :
  device a = "GPU" \/ device a = "CPU" ->
  str_in (model a) (match model_list a with None => MODELS | Some l => l end) = true ->
  choose_loss (loss a) = Ok lossf ->
  patch_size a = Some p ->
  scale a = 0 ->
  outcome (SupervisedTrainer_init e a) = Raise ZeroDivisionError
  /\ training_started (effects (SupervisedTrainer_init e a)) = false.
Proof.
  intros Hdev Hmodel Hloss Hp Hscale.
  destruct (Trainer_init_succeeds e (model a) (loss a) (batch_size a) (device a)
              (gpu_memory_growth a) (use_multiprocessing a) (verbose a)
              (model_list a) lossf Hdev Hmodel Hloss) as (self & Hbase & _).
  apply SupervisedTrainer_init_raises_in_setup. right. exists self.
  split; [exact Hbase|].
  unfold setup_datagen. rewrite Hp, Hscale. reflexivity.
Qed.

End ConstructionOrder.

(** Patches of 16 with scale 0. *)
Lemma zero_scale_divides_by_zero_example :
  outcome (TrainingLogic.SupervisedTrainer_init TrainingLogic.example_env
             (TrainingLogic.example_args_with "resnet_spc" "GPU" 0 (Some 16) None None))
  = Raise ZeroDivisionError
  /\ TrainingLogic.training_started
       (effects (TrainingLogic.SupervisedTrainer_init TrainingLogic.example_env
                   (TrainingLogic.example_args_with "resnet_spc" "GPU" 0 (Some 16)
                      None None))) = false.
Proof.
  apply (zero_scale_divides_by_zero (U := TrainingLogic.example_utils)
           TrainingLogic.example_env
           (TrainingLogic.example_args_with "resnet_spc" "GPU" 0 (Some 16) None None)
           16 TrainingLogic.MeanAbsoluteError).
  - left. reflexivity.
  - reflexivity.
  - reflexivity.
  - reflexivity.
  - reflexivity.
Defined.

(** The first failing check decides: an unrecognized device is reported
    although the architecture, the patch size and [time_window] are wrong
    too. *)
Lemma configuration_checks_are_ordered_example :
  outcome (TrainingLogic.SupervisedTrainer_init TrainingLogic.example_env
             (TrainingLogic.example_args_with "foo" "TPU" 4 (Some 18) (Some 3) None))
  = Raise (ValueError "device not recognized")
  /\ existsb TrainingLogic.device_setup
       (effects (TrainingLogic.SupervisedTrainer_init TrainingLogic.example_env
                   (TrainingLogic.example_args_with "foo" "TPU" 4 (Some 18) (Some 3)
                      None))) = false.
Proof.
  apply (proj1 (configuration_checks_are_ordered (U := TrainingLogic.example_utils)
                  TrainingLogic.example_env
                  (TrainingLogic.example_args_with "foo" "TPU" 4 (Some 18) (Some 3)
                     None))).
  - discriminate.
  - discriminate.
Defined.

Section ConstructedTrainer.
Import TrainingLogic.
Context {U : Utils}.

(** A completed construction has completed its four stages. *)
Lemma SupervisedTrainer_init_Ok_inv e a t :
  outcome (SupervisedTrainer_init e a) = Ok t ->
  exists self ds m r,
    outcome (Trainer_init e (model a) (loss a) (batch_size a) (device a)
               (gpu_memory_growth a) (use_multiprocessing a) (verbose a)
               (model_list a)) = Ok self
    /\ outcome (setup_datagen self a) = Ok ds
    /\ outcome (setup_model self a) = Ok m
    /\ outcome (run e self a ds m) = Ok r
    /\ t = {| trainer := self; ds_train_val_test := ds;
              trained_model := m; attrs := r |}.
Proof.
  intros Hok. unfold SupervisedTrainer_init in Hok.
  apply outcome_bind_Ok_inv in Hok as (self & Hbase & Hok).
  apply outcome_bind_Ok_inv in Hok as (ds & Hds & Hok).
  apply outcome_bind_Ok_inv in Hok as (m & Hm & Hok).
  apply outcome_bind_Ok_inv in Hok as (r & Hr & Hok).
  injection Hok as <-. now exists self, ds, m, r.
Qed.

(** What [setup_datagen] returns when it returns: the three generators over
    the three splits, with the same parameters, and [time_window] agrees with
    the architecture. *)
Lemma setup_datagen_Ok self a ds :
  outcome (setup_datagen self a) = Ok ds ->
  time_window_disagrees (self_model self) (time_window a) = false
  /\ ds = (let params :=
             {| dg_scale := scale a;
                dg_batch_size := self_global_batch_size self;
                dg_topography := topography a;
                dg_landocean := landocean a;
                dg_patch_size := patch_size a;
                dg_model := self_model self;
                dg_interpolation := interpolation a;
                dg_time_window := time_window a |} in
           (DataGenerator (data_train a) (predictors_train a) params,
            DataGenerator (data_val a) (predictors_val a) params,
            DataGenerator (data_test a) (predictors_test a) params)).
Proof.
  unfold setup_datagen, time_window_disagrees.
  destruct (patch_size a) as [p|].
  - destruct (py_mod p (scale a)) as [r|err]; [|discriminate].
    destruct (r =? 0) eqn:Hr;
      destruct (time_window a) as [tw|];
      destruct (str_in (self_model self) recmodels);
      cbn; rewrite ?Hr; cbn; try discriminate; now intros [= <-].
  - destruct (time_window a) as [tw|];
      destruct (str_in (self_model self) recmodels);
      cbn; try discriminate; now intros [= <-].
Qed.

(** X3.  Every data generator of a constructed trainer draws batches of the
    global batch size, the per-replica batch size times the number of devices,
    and is built over its own split. *)
Theorem data_generators_get_global_batch_size e a t :
  outcome (SupervisedTrainer_init e a) = Ok t ->
  let global := batch_size a * Z.of_nat (List.length (listed_devices e (device a))) in
  let '(ds_train, ds_val, ds_test) := ds_train_val_test t in
  (datagen_data ds_train = data_train a /\ datagen_batch_size ds_train = global)
  /\ (datagen_data ds_val = data_val a /\ datagen_batch_size ds_val = global)
  /\ (datagen_data ds_test = data_test a /\ datagen_batch_size ds_test = global).
Proof.
  intros Hok global.
  apply SupervisedTrainer_init_Ok_inv in Hok
    as (self & ds & m & r & Hbase & Hds & _ & _ & ->).
  apply setup_datagen_Ok in Hds as [_ ->]. cbn.
  assert (self_global_batch_size self = global) as ->; [|now repeat split].
  rewrite Trainer_init_outcome in Hbase.
  destruct (negb _); [discriminate|].
  destruct (checkarg_model _ _); [|discriminate].
  destruct (choose_loss _); [|discriminate].
  now injection Hbase as <-.
Qed.

(** [run] completes only on an instantiated network. *)
Lemma run_Ok_network e self a ds m r :
  outcome (run e self a ds m) = Ok r -> exists net, m = ModelNet net.
Proof.
  intros Hok. destruct m as [name|net]; [exfalso|now exists net].
  unfold run in Hok. destruct ds as [[ds_train ds_val] ds_test].
  do 3 (apply outcome_bind_Ok_inv in Hok as (? & _ & Hok)).
  apply outcome_bind_Ok_inv in Hok as (? & Hok & _).
  discriminate Hok.
Qed.

(** What [setup_model] returns when it returns: for one of the six known
    names the network of that name, recurrent ones with the [time_window] of
    the call; for any other name the name itself. *)
Lemma setup_model_Ok self a m :
  outcome (setup_model self a) = Ok m ->
  (exists net,
      m = ModelNet net
      /\ str_in (self_model self) known_models = true
      /\ network_time_window net
         = if str_in (self_model self) recmodels then Some (time_window a) else None)
  \/ (m = ModelStr (self_model self)
      /\ str_in (self_model self) known_models = false).
Proof.
  unfold setup_model, count_channels.
  remember (self_model self) as name eqn:Hname. clear Hname.
  intros Hok. apply outcome_bind_Ok_inv in Hok as (m0 & Hm0 & Hok).
  assert (m = m0) as ->.
  { apply outcome_bind_Ok_inv in Hok as (? & _ & Hok). now injection Hok as <-. }
  clear Hok. cbn [lift outcome fst] in Hm0.
  destruct (String.eqb name "resnet_spc") eqn:H1;
    [apply String.eqb_eq in H1 as ->; injection Hm0 as <-; left; eexists;
     repeat split|].
  destruct (String.eqb name "resnet_rc") eqn:H2;
    [apply String.eqb_eq in H2 as ->; injection Hm0 as <-; left; eexists;
     repeat split|].
  destruct (String.eqb name "resnet_bi") eqn:H3;
    [apply String.eqb_eq in H3 as ->; injection Hm0 as <-; left; eexists;
     repeat split|].
  destruct (String.eqb name "recurrent_resnet_spc") eqn:H4;
    [apply String.eqb_eq in H4 as ->; injection Hm0 as <-; left; eexists;
     repeat split|].
  destruct (String.eqb name "recurrent_resnet_rc") eqn:H5;
    [apply String.eqb_eq in H5 as ->; injection Hm0 as <-; left; eexists;
     repeat split|].
  destruct (String.eqb name "recurrent_resnet_bi") eqn:H6;
    [apply String.eqb_eq in H6 as ->; injection Hm0 as <-; left; eexists;
     repeat split|].
  injection Hm0 as <-. right. split; [reflexivity|].
  unfold known_models, str_in. cbn [existsb].
  now rewrite H1, H2, H3, H4, H5, H6.
Qed.

(** X4.  A constructed trainer holds an instantiated network, and the network is
    a recurrent one, built with the [time_window] of the call, exactly when a
    [time_window] was given. *)
Theorem constructed_network_matches_time_window e a t :
  outcome (SupervisedTrainer_init e a) = Ok t ->
  exists net,
    trained_model t = ModelNet net
    /\ network_time_window net
       = match time_window a with
         | Some w => Some (Some w)
         | None => None
         end.
Proof.
  intros Hok.
  apply SupervisedTrainer_init_Ok_inv in Hok
    as (self & ds & m & r & _ & Hds & Hm & Hr & ->).
  apply run_Ok_network in Hr as [net ->]. exists net. split; [reflexivity|].
  apply setup_datagen_Ok in Hds as [Hagree _].
  apply setup_model_Ok in Hm as [(net' & Hnet & _ & Htw) | [Hstr _]];
    [|discriminate Hstr].
  injection Hnet as <-. rewrite Htw.
  unfold time_window_disagrees in Hagree.
  destruct (time_window a) as [w|], (str_in (self_model self) recmodels);
    try reflexivity; discriminate Hagree.
Qed.

(** X5.  An architecture name that a caller's [model_list] admits but that is not
    one of the six known ones is never instantiated: the construction ends in
    an exception and nothing is compiled, fitted or evaluated. *)
Theorem unknown_architecture_is_never_trained e a :
  str_in (model a) known_models = false ->
  training_started (effects (SupervisedTrainer_init e a)) = false
  /\ exists err, outcome (SupervisedTrainer_init e a) = Raise err.
Proof.
  intros Hunknown. split.
  - apply existsb_false_Forall. unfold SupervisedTrainer_init.
    apply effects_bind_Forall; [apply Trainer_init_effects; auto|].
    intros self Hbase. apply Trainer_init_model in Hbase as (Hname & _).
    apply effects_bind_Forall; [rewrite setup_datagen_effects; constructor|].
    intros ds _.
    apply effects_bind_Forall; [now apply setup_model_effects|].
    intros m Hm.
    apply setup_model_Ok in Hm as [(net & _ & Hknown & _) | [-> _]];
      [rewrite Hname in Hknown; congruence|].
    apply effects_bind_Forall; [|intros r _; constructor].
    unfold run. destruct ds as [[ds_train ds_val] ds_test].
    effects_forall ltac:(reflexivity).
  - destruct (outcome (SupervisedTrainer_init e a)) as [t|err] eqn:Hok;
      [exfalso|now exists err].
    apply SupervisedTrainer_init_Ok_inv in Hok
      as (self & ds & m & r & Hbase & _ & Hm & Hr & _).
    apply Trainer_init_model in Hbase as (Hname & _).
    apply run_Ok_network in Hr as [net ->].
    apply setup_model_Ok in Hm as [(net' & _ & Hknown & _) | [Hstr _]];
      [rewrite Hname in Hknown; congruence|discriminate Hstr].
Qed.

End ConstructedTrainer.

Section RunArguments.
Import TrainingLogic.
Context {U : Utils}.

(** Splits [run] on a network along its tests, then evaluates it. *)
Ltac run_cases a self :=
  destruct (early_stopping a);
  destruct (String.eqb (plot a) "llp");
  destruct (savecheckpoint_path a) as [cp|];
  destruct (steps_per_epoch a) as [steps|];
  destruct (String.eqb (plot a) "plt");
  destruct (self_running_on_first_worker self);
  destruct (show_plot a);
  destruct (save a);
  destruct (save_path a) as [sp|];
  cbn.

(** X6.  Only a float learning rate is scaled by the group size: an integer one
    reaches [Adam] unchanged, and a tuple gives a piecewise-constant schedule
    over its first two elements with the boundary [lr_decay_after], further
    elements being ignored. *)
Theorem other_learning_rates_are_not_scaled e self a ds net :
  (forall n, learning_rate a = LrInt n ->
             compiled_optimizers (effects (run e self a ds (ModelNet net)))
             = [DistributedOptimizer (Adam (LrConstInt n))])
  /\ (forall v0 v1 more,
         learning_rate a = LrTuple (v0 :: v1 :: more) ->
         compiled_optimizers (effects (run e self a ds (ModelNet net)))
         = [DistributedOptimizer
              (Adam (PiecewiseConstantDecay [lr_decay_after a] [v0; v1]))]).
Proof.
  destruct ds as [[ds_train ds_val] ds_test]. split.
  - intros n Hlr. unfold run, run_save_model. rewrite Hlr.
    cbn [setup_learning_rate]. run_cases a self; reflexivity.
  - intros v0 v1 more Hlr. unfold run, run_save_model. rewrite Hlr.
    cbn [setup_learning_rate nth_error]. run_cases a self; reflexivity.
Qed.

(** X7.  A tuple learning rate with fewer than two elements makes [run] raise
    [IndexError] before any effect: no directory is created and nothing is
    compiled. *)
Theorem short_learning_rate_tuple_raises e self a ds m values :
  learning_rate a = LrTuple values ->
  (List.length values < 2)%nat ->
  run e self a ds m = (Raise IndexError, []).
Proof.
  intros Hlr Hlen. unfold run. rewrite Hlr.
  destruct ds as [[ds_train ds_val] ds_test].
  destruct values as [|v0 [|v1 more]]; cbn in Hlen; try lia; reflexivity.
Qed.

(** X8.  The checkpoint callback is handed to [fit] on the first worker only,
    while the checkpoint directory is created on every worker; the broadcast
    of the initial variables from rank 0 is among the callbacks on every
    worker, exactly once. *)
Theorem checkpoint_callback_only_on_first_worker e self a ds net lr :
  setup_learning_rate (learning_rate a) (lr_decay_after a) (hvd_size e) = Ok lr ->
  exists steps v cbs,
    fit_calls (effects (run e self a ds (ModelNet net))) = [(steps, v, cbs)]
    /\ has_model_checkpoint cbs
       = match savecheckpoint_path a with
         | Some _ => self_running_on_first_worker self
         | None => false
         end
    /\ broadcast_roots cbs = [0]
    /\ (forall p, savecheckpoint_path a = Some p ->
                  In p (created_directories (effects (run e self a ds (ModelNet net))))).
Proof.
  intros Hlr. unfold run, run_save_model. rewrite Hlr.
  destruct ds as [[ds_train ds_val] ds_test].
  run_cases a self;
    (eexists; eexists; eexists; split; [reflexivity|]);
    (split; [reflexivity|]); (split; [reflexivity|]);
    intros p Hp; try discriminate Hp; injection Hp as ->; now left.
Qed.

(** X9.  [fit] is called with the verbosity of the caller on every worker and
    with [steps_per_epoch] divided (floored) by the group size; [evaluate] is
    called with that verbosity on the first worker when it is 1 or 2, and with
    0 otherwise. *)
Theorem fit_and_evaluate_arguments e self a ds net lr :
  setup_learning_rate (learning_rate a) (lr_decay_after a) (hvd_size e) = Ok lr ->
  (exists cbs,
      fit_calls (effects (run e self a ds (ModelNet net)))
      = [(match steps_per_epoch a with
          | Some s => Some (s / Zpos (hvd_size e))
          | None => None
          end, self_verbose self, cbs)])
  /\ evaluate_verbose (effects (run e self a ds (ModelNet net)))
     = [if self_running_on_first_worker self && verbose_in_1_2 (self_verbose self)
        then self_verbose self else 0].
Proof.
  intros Hlr. unfold run, run_save_model. rewrite Hlr.
  destruct ds as [[ds_train ds_val] ds_test].
  assert (forall first,
             (if (self_verbose self =? 1) && first then 1
              else if (self_verbose self =? 2) && first then 2 else 0)
             = if first && verbose_in_1_2 (self_verbose self)
               then self_verbose self else 0) as Hv.
  { intros first. unfold verbose_in_1_2.
    destruct (self_verbose self =? 1) eqn:H1, (self_verbose self =? 2) eqn:H2,
      first; cbn; try reflexivity;
      try (apply Z.eqb_eq in H1); try (apply Z.eqb_eq in H2); lia. }
  rewrite Hv.
  run_cases a self; (split; [eexists; reflexivity|reflexivity]).
Qed.

End RunArguments.

Section FirstWorkerEffects.
Import TrainingLogic.
Context {U : Utils}.

(** A GPU worker whose rank is not 0 is not first worker. *)
Lemma other_gpu_worker_not_first e a self :
  device a = "GPU" -> hvd_rank e <> 0 ->
  outcome (Trainer_init e (model a) (loss a) (batch_size a) (device a)
             (gpu_memory_growth a) (use_multiprocessing a) (verbose a)
             (model_list a)) = Ok self ->
  self_running_on_first_worker self = false.
Proof.
  intros Hdev Hrank Hbase.
  apply Trainer_init_model in Hbase as (_ & _ & ->).
  rewrite Hdev. apply Z.eqb_neq in Hrank. now rewrite Hrank.
Qed.

(** X10.  On a GPU worker whose rank is not 0, the construction never makes
    any of the four calls that the code guards with [running_on_first_worker]:
    [self.model.summary], [plot_history], [show] and [self.model.save]. *)
Theorem other_workers_leave_first_worker_effects e a :
  device a = "GPU" ->
  hvd_rank e <> 0 ->
  existsb first_worker_only (effects (SupervisedTrainer_init e a)) = false.
Proof.
  intros Hdev Hrank. apply existsb_false_Forall. unfold SupervisedTrainer_init.
  apply effects_bind_Forall.
  { unfold Trainer_init. effects_forall ltac:(reflexivity). }
  intros self Hbase.
  pose proof (other_gpu_worker_not_first e a self Hdev Hrank Hbase) as Hfirst.
  apply effects_bind_Forall; [rewrite setup_datagen_effects; constructor|].
  intros ds _. apply effects_bind_Forall.
  { unfold setup_model. rewrite Hfirst, andb_false_r.
    effects_forall ltac:(reflexivity). }
  intros m _. apply effects_bind_Forall; [|intros r _; constructor].
  unfold run, run_save_model. rewrite Hfirst.
  destruct ds as [[ds_train ds_val] ds_test]. cbv beta iota zeta.
  effects_forall ltac:(reflexivity).
Qed.

Lemma saved_models_app (t1 t2 : list event) :
  saved_models (t1 ++ t2) = saved_models t1 ++ saved_models t2.
Proof. apply flat_map_app. Qed.

(** What a completed [run] has saved. *)
Lemma run_saved_models e self a ds m r :
  outcome (run e self a ds m) = Ok r ->
  saved_models (effects (run e self a ds m))
  = if save a && self_running_on_first_worker self then ["./saved_model/"] else [].
Proof.
  intros Hok. destruct (run_Ok_network _ _ _ _ _ _ Hok) as [net ->].
  revert Hok. unfold run, run_save_model.
  destruct ds as [[ds_train ds_val] ds_test].
  destruct (setup_learning_rate _ _ _) as [lr|err]; [|discriminate].
  destruct (early_stopping a);
    destruct (String.eqb (plot a) "llp");
    destruct (savecheckpoint_path a) as [cp|];
    destruct (steps_per_epoch a) as [steps|];
    destruct (String.eqb (plot a) "plt");
    destruct (self_running_on_first_worker self);
    destruct (show_plot a);
    destruct (save a);
    destruct (save_path a) as [sp|];
    cbn; intros Hok; try discriminate Hok; reflexivity.
Qed.

(** X11.  A construction that completes has written the model exactly once, at
    ['./saved_model/'], when [save] is set and the worker is the first one, and
    has written no model otherwise. *)
Theorem completed_construction_saves_at_default_path e a t :
  outcome (SupervisedTrainer_init e a) = Ok t ->
  saved_models (effects (SupervisedTrainer_init e a))
  = if save a && self_running_on_first_worker (trainer t)
    then ["./saved_model/"] else [].
Proof.
  intros Hok.
  destruct (SupervisedTrainer_init_Ok_inv e a t Hok)
    as (self & ds & m & r & Hbase & Hds & Hm & Hr & ->).
  cbn [trainer]. unfold SupervisedTrainer_init.
  rewrite effects_bind, Hbase, effects_bind, Hds, effects_bind, Hm,
    effects_bind, Hr.
  rewrite !saved_models_app, setup_datagen_effects.
  rewrite (saved_models_nil (effects (Trainer_init _ _ _ _ _ _ _ _ _)))
    by (apply Trainer_init_effects; auto).
  rewrite (saved_models_nil (effects (setup_model self a)))
    by (apply setup_model_effects; discriminate).
  rewrite (run_saved_models _ _ _ _ _ _ Hr). cbn. now rewrite app_nil_r.
Qed.

End FirstWorkerEffects.

(** The end-to-end scenario: 64 per replica on four devices, so every
    generator draws batches of 256. *)
Lemma data_generators_get_global_batch_size_example :
  exists t,
    outcome (TrainingLogic.SupervisedTrainer_init TrainingLogic.example_env
               TrainingLogic.example_args) = Ok t
    /\ TrainingLogic.datagen_batch_size (fst (fst (TrainingLogic.ds_train_val_test t)))
       = 256.
Proof.
  destruct (outcome (TrainingLogic.SupervisedTrainer_init TrainingLogic.example_env
                       TrainingLogic.example_args)) as [t|err] eqn:Hok;
    [|vm_compute in Hok; discriminate Hok].
  exists t. split; [reflexivity|].
  pose proof (data_generators_get_global_batch_size
                (U := TrainingLogic.example_utils) TrainingLogic.example_env
                TrainingLogic.example_args t Hok) as Hds.
  cbv zeta in Hds.
  destruct (TrainingLogic.ds_train_val_test t) as [[ds_train ds_val] ds_test].
  destruct Hds as [[_ Hbatch] _]. exact Hbatch.
Defined.

(** A recurrent architecture with a window of three time steps. *)
Lemma constructed_network_matches_time_window_example :
  exists t net,
    outcome (TrainingLogic.SupervisedTrainer_init TrainingLogic.example_env
               (TrainingLogic.example_args_with "recurrent_resnet_spc" "GPU" 4
                  (Some 16) (Some 3) None)) = Ok t
    /\ TrainingLogic.trained_model t = TrainingLogic.ModelNet net
    /\ TrainingLogic.network_time_window net = Some (Some 3).
Proof.
  destruct (outcome (TrainingLogic.SupervisedTrainer_init TrainingLogic.example_env
                       (TrainingLogic.example_args_with "recurrent_resnet_spc" "GPU" 4
                          (Some 16) (Some 3) None))) as [t|err] eqn:Hok;
    [|vm_compute in Hok; discriminate Hok].
  destruct (constructed_network_matches_time_window
              (U := TrainingLogic.example_utils) TrainingLogic.example_env _ t Hok)
    as (net & Hnet & Htw).
  exists t, net. repeat split; assumption.
Defined.

(** A name admitted by the caller's own list: the construction gets as far
    as [run], creates the checkpoint directory and fails on [compile]. *)
Lemma unknown_architecture_is_never_trained_example :
  TrainingLogic.training_started
    (effects (TrainingLogic.SupervisedTrainer_init TrainingLogic.example_env
                (TrainingLogic.example_args_variant "my_net" (Some ["my_net"])
                   (TrainingLogic.LrFloat 1e-4%float) 0))) = false
  /\ exists err,
       outcome (TrainingLogic.SupervisedTrainer_init TrainingLogic.example_env
                  (TrainingLogic.example_args_variant "my_net" (Some ["my_net"])
                     (TrainingLogic.LrFloat 1e-4%float) 0)) = Raise err.
Proof.
  apply (unknown_architecture_is_never_trained (U := TrainingLogic.example_utils)).
  reflexivity.
Defined.

Lemma unknown_architecture_example_outcome :
  TrainingLogic.SupervisedTrainer_init TrainingLogic.example_env
    (TrainingLogic.example_args_variant "my_net" (Some ["my_net"])
       (TrainingLogic.LrFloat 1e-4%float) 0)
  = (Raise (AttributeError "compile"),
     [TrainingLogic.HvdInit; TrainingLogic.SetGpuMemoryGrowth;
      TrainingLogic.SetVisibleGpus 0; TrainingLogic.ListDevices true;
      TrainingLogic.Makedirs "./checkpoints/"]).
Proof. vm_compute. reflexivity. Qed.

(** An integer rate of 1 on four workers stays 1. *)
Lemma other_learning_rates_are_not_scaled_example :
  TrainingLogic.compiled_optimizers
    (effects (TrainingLogic.run TrainingLogic.example_env
                TrainingLogic.example_trainer
                (TrainingLogic.example_args_variant "resnet_spc" None
                   (TrainingLogic.LrInt 1) 1)
                TrainingLogic.example_datagens
                (TrainingLogic.ModelNet TrainingLogic.example_network)))
  = [TrainingLogic.DistributedOptimizer
       (TrainingLogic.Adam (TrainingLogic.LrConstInt 1))].
Proof.
  apply (proj1 (other_learning_rates_are_not_scaled
                  (U := TrainingLogic.example_utils) TrainingLogic.example_env
                  TrainingLogic.example_trainer
                  (TrainingLogic.example_args_variant "resnet_spc" None
                     (TrainingLogic.LrInt 1) 1)
                  TrainingLogic.example_datagens TrainingLogic.example_network)).
  reflexivity.
Defined.

(** A tuple of one rate. *)
Lemma short_learning_rate_tuple_raises_example :
  TrainingLogic.run TrainingLogic.example_env TrainingLogic.example_trainer
    (TrainingLogic.example_args_variant "resnet_spc" None
       (TrainingLogic.LrTuple [1e-3%float]) 1)
    TrainingLogic.example_datagens
    (TrainingLogic.ModelNet TrainingLogic.example_network)
  = (Raise IndexError, []).
Proof.
  apply (short_learning_rate_tuple_raises (U := TrainingLogic.example_utils))
    with (values := [1e-3%float]).
  - reflexivity.
  - cbn. lia.
Defined.

(** The example call on the first worker: the checkpoint callback is among
    the callbacks of [fit]. *)
Lemma checkpoint_callback_only_on_first_worker_example :
  exists steps v cbs,
    TrainingLogic.fit_calls
      (effects (TrainingLogic.run TrainingLogic.example_env
                  TrainingLogic.example_trainer TrainingLogic.example_args
                  TrainingLogic.example_datagens
                  (TrainingLogic.ModelNet TrainingLogic.example_network)))
    = [(steps, v, cbs)]
    /\ TrainingLogic.has_model_checkpoint cbs = true
    /\ TrainingLogic.broadcast_roots cbs = [0].
Proof.
  destruct (checkpoint_callback_only_on_first_worker
              (U := TrainingLogic.example_utils) TrainingLogic.example_env
              TrainingLogic.example_trainer TrainingLogic.example_args
              TrainingLogic.example_datagens TrainingLogic.example_network
              _ eq_refl) as (steps & v & cbs & Hfit & Hck & Hroots & _).
  exists steps, v, cbs. repeat split; assumption.
Defined.

(** Ten steps per epoch on four workers: [fit] gets two. *)
Lemma fit_and_evaluate_arguments_example :
  (exists cbs,
      TrainingLogic.fit_calls
        (effects (TrainingLogic.run TrainingLogic.example_env
                    TrainingLogic.example_trainer
                    (TrainingLogic.example_args_variant "resnet_spc" None
                       (TrainingLogic.LrInt 1) 1)
                    TrainingLogic.example_datagens
                    (TrainingLogic.ModelNet TrainingLogic.example_network)))
      = [(Some 2, 1, cbs)])
  /\ TrainingLogic.evaluate_verbose
       (effects (TrainingLogic.run TrainingLogic.example_env
                   TrainingLogic.example_trainer
                   (TrainingLogic.example_args_variant "resnet_spc" None
                      (TrainingLogic.LrInt 1) 1)
                   TrainingLogic.example_datagens
                   (TrainingLogic.ModelNet TrainingLogic.example_network)))
     = [1].
Proof.
  apply (fit_and_evaluate_arguments (U := TrainingLogic.example_utils)
           TrainingLogic.example_env TrainingLogic.example_trainer
           (TrainingLogic.example_args_variant "resnet_spc" None
              (TrainingLogic.LrInt 1) 1)
           TrainingLogic.example_datagens TrainingLogic.example_network
           (TrainingLogic.LrConstInt 1)).
  reflexivity.
Defined.

(** The example call on the worker of rank 1. *)
Lemma other_workers_leave_first_worker_effects_example :
  existsb TrainingLogic.first_worker_only
    (effects (TrainingLogic.SupervisedTrainer_init
                (TrainingLogic.member_env 4 ["GPU:1"] ["CPU:0"] 1)
                TrainingLogic.example_args)) = false.
Proof.
  apply (other_workers_leave_first_worker_effects (U := TrainingLogic.example_utils)).
  - reflexivity.
  - discriminate.
Defined.

(** The example call on the first worker: one model, at the default path. *)
Lemma completed_construction_saves_at_default_path_example :
  TrainingLogic.saved_models
    (effects (TrainingLogic.SupervisedTrainer_init TrainingLogic.example_env
                TrainingLogic.example_args)) = ["./saved_model/"].
Proof.
  destruct (outcome (TrainingLogic.SupervisedTrainer_init TrainingLogic.example_env
                       TrainingLogic.example_args)) as [t|err] eqn:Hok;
    [|vm_compute in Hok; discriminate Hok].
  rewrite (completed_construction_saves_at_default_path
             (U := TrainingLogic.example_utils) _ _ t Hok).
  apply SupervisedTrainer_init_Ok_inv in Hok
    as (self & ds & m & r & Hbase & _ & _ & _ & ->).
  apply Trainer_init_model in Hbase as (_ & _ & Hfirst).
  cbn [TrainingLogic.trainer]. rewrite Hfirst. reflexivity.
Defined.

(* ===================================================================== *)
(** * Further properties of the adversarial training loop *)
(* ===================================================================== *)

Section TrainingLoopEffects.
Import Cgan.
Context {F : Framework}.

(** The effects of [train_step] are its call and summaries. *)
Lemma train_step_effects (P : event -> Prop) lr_array hr_array st epoch :
  P (TrainStepCall lr_array hr_array epoch) ->
  (forall name value, P (SummaryScalar name value epoch)) ->
  Forall P (effects (train_step lr_array hr_array st epoch)).
Proof.
  intros Hcall Hsummary.
  destruct (train_step_completes lr_array hr_array st epoch) as (st' & ->).
  cbn [effects snd]. constructor; [exact Hcall|].
  apply Forall_map, Forall_forall. intros p _. apply Hsummary.
Qed.

(** The effects of the body of the loop over the samples. *)
Lemma train_one_sample_effects (P : event -> Prop) a epoch i s :
  (((i + 1) mod 100 =? 0) = true -> P PrintDot) ->
  (forall lr_array hr_array, P (TrainStepCall lr_array hr_array epoch)) ->
  (forall name value, P (SummaryScalar name value epoch)) ->
  Forall P (effects (train_one_sample a epoch i s)).
Proof.
  intros Hdot Hcall Hsummary. unfold train_one_sample.
  apply effects_bind_Forall.
  { destruct ((i + 1) mod 100 =? 0); [|constructor].
    apply effects_emit_Forall. now apply Hdot. }
  intros _ _. apply effects_bind_Forall; [apply effects_lift_Forall|].
  intros x _.
  destruct (create_pair_hr_lr x (scale a) (topography a) (landocean a)
              (patch_size a) (model a) (interpolation a)) as [hr_array lr_array].
  apply effects_bind_Forall; [apply effects_lift_Forall|].
  intros g _. apply effects_bind_Forall.
  { apply train_step_effects; auto. }
  intros [st ls] _. apply effects_ret_Forall.
Qed.

(** The ten indices of the loop over the samples never reach a multiple of
    one hundred. *)
Lemma sample_index_no_dot i : In i (range 10) -> ((i + 1) mod 100 =? 0) = false.
Proof.
  intros Hi. apply in_map_iff in Hi as (n & <- & Hn). apply in_seq in Hn.
  apply Z.eqb_neq. rewrite Z.mod_small; lia.
Qed.

(** The effects of one epoch: the epoch line, calls and summaries, the two
    lines of losses, checkpoints, the line of the time taken. *)
Lemma train_one_epoch_effects (P : event -> Prop) a checkpoint epoch s :
  P (PrintEpoch epoch) ->
  (forall lr_array hr_array, P (TrainStepCall lr_array hr_array epoch)) ->
  (forall name value, P (SummaryScalar name value epoch)) ->
  P PrintNewline ->
  (forall ls, P (PrintLosses ls)) ->
  (forall p st, checkpoints_frequency a <> None ->
                checkpoints_frequency a <> Some 0 -> P (CheckpointSave p st)) ->
  P (PrintTimeTaken (epoch + 1)) ->
  Forall P (effects (train_one_epoch a checkpoint epoch s)).
Proof.
  intros Hepoch Hcall Hsummary Hnewline Hlosses Hsave Htime.
  unfold train_one_epoch.
  apply effects_bind_Forall; [now apply effects_emit_Forall|]. intros _ _.
  apply effects_bind_Forall.
  { apply for_each_effects_Forall. intros i s0 Hi.
    apply train_one_sample_effects; auto.
    rewrite (sample_index_no_dot i Hi). discriminate. }
  intros s1 _.
  apply effects_bind_Forall; [now apply effects_emit_Forall|]. intros _ _.
  apply effects_bind_Forall; [apply effects_lift_Forall|].
  intros [[[gt gg] gl] dl] _.
  apply effects_bind_Forall; [now apply effects_emit_Forall|]. intros _ _.
  apply effects_bind_Forall.
  { destruct (checkpoints_frequency a) as [f|] eqn:Hf; [|constructor].
    apply effects_bind_Forall; [apply effects_lift_Forall|].
    intros r Hr. destruct (r =? 0); [|constructor].
    unfold checkpoint_save.
    apply effects_bind_Forall; [apply effects_lift_Forall|]. intros p _.
    apply effects_bind_Forall; [apply effects_lift_Forall|]. intros g _.
    apply effects_emit_Forall. apply Hsave; [discriminate|].
    intros [= ->]. discriminate Hr. }
  intros _ _.
  apply effects_bind_Forall; [now apply effects_emit_Forall|]. intros _ _.
  apply effects_ret_Forall.
Qed.

Lemma saves_after_from_none (n : Z) (tr : list event) :
  Forall (fun ev => is_checkpoint_save ev = false) tr -> saves_after_from n tr = [].
Proof.
  intros Hall. revert n. induction Hall as [|ev tr Hev _ IH]; intros n; [reflexivity|].
  destruct ev; try discriminate Hev; cbn; apply IH.
Qed.

(** X12.  No progress dot is ever printed: the loop over the samples stops at ten,
    below the first multiple of one hundred. *)
Theorem no_progress_dot_is_printed a :
  existsb is_print_dot (effects (training_cgan a)) = false.
Proof.
  apply existsb_false_Forall. unfold training_cgan.
  apply effects_bind_Forall; [now apply effects_emit_Forall|]. intros _ _.
  cbv zeta.
  apply effects_bind_Forall.
  { destruct (checkpoints_frequency a); [|constructor].
    apply effects_bind_Forall; [apply effects_lift_Forall|].
    intros g _. apply effects_ret_Forall. }
  intros checkpoint _. apply effects_bind_Forall.
  { apply for_each_effects_Forall. intros epoch s _.
    apply train_one_epoch_effects; reflexivity. }
  intros s _. apply effects_bind_Forall.
  { unfold checkpoint_save.
    apply effects_bind_Forall; [apply effects_lift_Forall|]. intros p _.
    apply effects_bind_Forall; [apply effects_lift_Forall|]. intros g _.
    now apply effects_emit_Forall. }
  intros _ _. apply effects_bind_Forall; [now apply effects_emit_Forall|].
  intros _ _. apply effects_bind_Forall; [now apply effects_emit_Forall|].
  intros _ _. apply effects_lift_Forall.
Qed.

End TrainingLoopEffects.

(** Assigns the local [generator] of [training_cgan] for a known model, and
    runs the monad on computed steps. *)
Ltac assign_generator Hmodel g0 Hg0 :=
  match goal with
  | |- context [if String.eqb (Cgan.model ?a) "rspc" then Some ?w1 else _] =>
      match goal with
      | |- context [if String.eqb (Cgan.model a) "rint" then Some ?w2 else _] =>
          destruct (generator_assigned (Cgan.model a) w1 w2 Hmodel) as [g0 Hg0]
      end
  end;
  cbv zeta; rewrite Hg0.

Ltac run_monad := cbn [emit bind lift read_local ret app].

Section TrainingCganEdges.
Import Cgan.
Context {F : Framework}.


(** The run with [checkpoints_frequency=0] and at least one epoch. *)
Lemma training_cgan_zero_frequency_run a :
  (10 <= List.length (x_train a))%nat ->
  model a = "rspc" \/ model a = "rint" ->
  checkpoints_frequency a = Some 0 ->
  1 <= epochs a ->
  exists tr,
    training_cgan a = (Raise ZeroDivisionError, CreateFileWriter "cgan_logs/fit/" :: tr)
    /\ train_step_calls tr = calls_on_first_ten a 0
    /\ Forall (fun ev => is_checkpoint_save ev = false) tr.
Proof.
  intros Hlen Hmodel Hf HE. unfold training_cgan. rewrite Hf.
  assign_generator Hmodel g0 Hg0. run_monad. unfold range.
  destruct (Z.to_nat (epochs a)) as [|m] eqn:Hm; [lia|].
  cbn [seq map for_each].
  match goal with
  | |- context [train_one_epoch a ?ck (Z.of_nat 0) ?s0] =>
      destruct (train_one_epoch_zero_frequency a ck (Z.of_nat 0) s0 Hlen)
        as (tr & Hepoch & Hcalls);
      [now exists g0|exact Hf|];
      pose proof (train_one_epoch_effects
                    (fun ev => is_checkpoint_save ev = false) a ck (Z.of_nat 0) s0)
        as Hquiet
  end.
  rewrite Hepoch in Hquiet |- *. run_monad.
  exists tr. split; [reflexivity|]. split; [exact Hcalls|].
  apply Hquiet; try reflexivity. intros p st _ Hzero. now destruct Hzero.
Qed.

(** X14.  With [checkpoints_frequency=0], at least one epoch, at least ten
    samples and the model ['rspc'] or ['rint'], the first epoch makes its ten
    training steps, then the cadence test divides by zero: [training_cgan]
    raises [ZeroDivisionError] and no checkpoint is written. *)
Theorem zero_cadence_divides_by_zero a :
  (10 <= List.length (x_train a))%nat ->
  model a = "rspc" \/ model a = "rint" ->
  checkpoints_frequency a = Some 0 ->
  1 <= epochs a ->
  outcome (training_cgan a) = Raise ZeroDivisionError
  /\ saves_after (effects (training_cgan a)) = []
  /\ train_step_calls (effects (training_cgan a)) = calls_on_first_ten a 0.
Proof.
  intros Hlen Hmodel Hf HE.
  destruct (training_cgan_zero_frequency_run a Hlen Hmodel Hf HE)
    as (tr & -> & Hcalls & Hquiet).
  split; [reflexivity|]. split.
  - unfold saves_after. cbn. now apply saves_after_from_none.
  - exact Hcalls.
Qed.

(** An epoch entered while the local [generator] is unassigned raises before
    any training step. *)
Lemma train_one_epoch_unbound_generator a checkpoint epoch s :
  l_generator s = None ->
  exists err, train_one_epoch a checkpoint epoch s = (Raise err, [PrintEpoch epoch]).
Proof.
  intros Hgen. unfold train_one_epoch.
  change (range 10) with (0 :: map Z.of_nat (seq 1 9)).
  cbn [for_each]. unfold train_one_sample.
  change ((0 + 1) mod 100 =? 0) with false. run_monad. cbn [when].
  destruct (getitem (x_train a) 0) as [x|err]; run_monad.
  - destruct (create_pair_hr_lr x (scale a) (topography a) (landocean a)
                (patch_size a) (model a) (interpolation a)) as [hr_array lr_array].
    rewrite Hgen. run_monad. eexists. reflexivity.
  - eexists. reflexivity.
Qed.

(** X15.  For a model name other than ['rspc'] and ['rint'] no generator is built:
    [training_cgan] always ends in an exception, and it never makes a training
    step nor writes a checkpoint. *)
Theorem unknown_model_never_trains a :
  model a <> "rspc" ->
  model a <> "rint" ->
  (exists err, outcome (training_cgan a) = Raise err)
  /\ train_step_calls (effects (training_cgan a)) = []
  /\ saves_after (effects (training_cgan a)) = [].
Proof.
  intros Hrspc Hrint. unfold training_cgan.
  apply String.eqb_neq in Hrspc, Hrint. rewrite Hrspc, Hrint. cbv zeta.
  destruct (checkpoints_frequency a) as [f|]; run_monad.
  - split; [eexists; reflexivity|]. split; reflexivity.
  - unfold range. destruct (Z.to_nat (epochs a)) as [|m].
    + cbn [seq map for_each]. run_monad. unfold checkpoint_save. run_monad.
      split; [eexists; reflexivity|]. split; reflexivity.
    + cbn [seq map for_each].
      match goal with
      | |- context [train_one_epoch a ?ck (Z.of_nat 0) ?s0] =>
          destruct (train_one_epoch_unbound_generator a ck (Z.of_nat 0) s0 eq_refl)
            as [err Hepoch]
      end.
      rewrite Hepoch. run_monad.
      split; [eexists; reflexivity|]. split; reflexivity.
Qed.

End TrainingCganEdges.

Section FewSamples.
Import Cgan.
Context {F : Framework}.

Lemma getitem_out_of_range {A} (l : list A) (k : nat) :
  (List.length l <= k)%nat -> getitem l (Z.of_nat k) = Raise IndexError.
Proof.
  intros Hk. unfold getitem.
  assert ((Z.of_nat k <? 0) = false) as Hneg by (apply Z.ltb_ge; lia).
  cbv zeta. rewrite !Hneg, Nat2Z.id.
  now apply nth_error_None in Hk as ->.
Qed.

(** The loop over the samples on fewer than ten samples: one step per
    sample, then [x_train[i]] is out of range. *)
Lemma sample_loop_short a epoch s :
  (List.length (x_train a) < 10)%nat ->
  generator_bound s ->
  exists tr,
    for_each (range 10) (train_one_sample a epoch) s = (Raise IndexError, tr)
    /\ train_step_calls tr = map (call_on a epoch) (x_train a)
    /\ forallb silent tr = true.
Proof.
  intros Hlen Hgen. set (n := List.length (x_train a)).
  change (range 10) with (map Z.of_nat (seq 0 10)).
  assert (seq 0 10 = seq 0 n ++ seq n (10 - n)) as ->
    by (rewrite <- seq_app; f_equal; lia).
  rewrite map_app, for_each_app.
  destruct (sample_loop_completes a epoch n 0 s ltac:(lia) Hgen)
    as (s1 & tr1 & -> & Hgen1 & _ & _ & _ & _ & _ & Hcalls & Hsilent).
  destruct (10 - n)%nat as [|m] eqn:Hm; [lia|].
  cbn [seq map for_each Nat.add]. unfold train_one_sample at 1.
  rewrite (getitem_out_of_range (x_train a) n) by lia.
  assert (((Z.of_nat n + 1) mod 100 =? 0) = false) as ->
    by (apply Z.eqb_neq; rewrite Z.mod_small; lia).
  cbn [when]. run_monad.
  exists tr1. split; [now rewrite app_nil_r|]. split; [|exact Hsilent].
  rewrite Hcalls. cbn [skipn]. subst n. now rewrite firstn_all.
Qed.

(** X16.  With the model ['rspc'] or ['rint'], fewer than ten samples and at
    least one epoch, the first epoch makes one training step per sample and
    then reads past the end of [x_train]: [training_cgan] raises [IndexError]
    and no checkpoint is written. *)
Theorem fewer_than_ten_samples_raise a :
  (List.length (x_train a) < 10)%nat ->
  model a = "rspc" \/ model a = "rint" ->
  1 <= epochs a ->
  outcome (training_cgan a) = Raise IndexError
  /\ train_step_calls (effects (training_cgan a)) = map (call_on a 0) (x_train a)
  /\ saves_after (effects (training_cgan a)) = [].
Proof.
  intros Hlen Hmodel HE. unfold training_cgan.
  assign_generator Hmodel g0 Hg0.
  assert (forall ck s0,
             generator_bound s0 ->
             exists tr,
               for_each (range (epochs a)) (train_one_epoch a ck) s0
               = (Raise IndexError, PrintEpoch 0 :: tr)
               /\ train_step_calls tr = map (call_on a 0) (x_train a)
               /\ forallb silent tr = true) as Hloop.
  { intros ck s0 Hbound. unfold range at 1.
    destruct (Z.to_nat (epochs a)) as [|m] eqn:Hm; [lia|].
    cbn [seq map for_each]. unfold train_one_epoch at 1.
    destruct (sample_loop_short a (Z.of_nat 0) s0 Hlen Hbound)
      as (tr & Hsamples & Hcalls & Hsilent).
    cbn [emit bind]. rewrite Hsamples. run_monad.
    exists tr. split; [now rewrite ?app_nil_r|]. now split. }
  destruct (checkpoints_frequency a) as [f|]; run_monad;
    match goal with
    | |- context [for_each _ (train_one_epoch a ?ck) ?s0] =>
        destruct (Hloop ck s0) as (tr & -> & Hcalls & Hsilent); [now exists g0|]
    end;
    run_monad; (split; [reflexivity|]); (split; [exact Hcalls|]);
    unfold saves_after; cbn [effects snd saves_after_from];
    rewrite <- (app_nil_r tr); now rewrite saves_after_from_silent.
Qed.

End FewSamples.

Section CompletedRuns.
Import Cgan.
Context {F : Framework}.

Lemma emit_inv (ev : event) u t : emit ev = (Ok u, t) -> t = [ev].
Proof. now intros [= _ <-]. Qed.

Lemma lift_inv {A} (r : result A) x (t : list event) :
  lift r = (Ok x, t) -> r = Ok x /\ t = [].
Proof. now intros [= -> <-]. Qed.

(** What a completed pass of the body of the loop over the samples has done:
    the loss histories are untouched and four summaries were recorded under
    the epoch. *)
Lemma train_one_sample_Ok_inv a epoch i s s' tr :
  train_one_sample a epoch i s = (Ok s', tr) ->
  gentotal s' = gentotal s /\ gengan s' = gengan s
  /\ genl1 s' = genl1 s /\ disc s' = disc s
  /\ summary_steps tr = [epoch; epoch; epoch; epoch].
Proof.
  unfold train_one_sample. intros H.
  apply bind_Ok_inv in H as (u & t1 & t2 & Hdot & H & ->).
  assert (summary_steps t1 = []) as Hdots.
  { destruct ((i + 1) mod 100 =? 0); cbn in Hdot; now injection Hdot as _ <-. }
  apply bind_Ok_inv in H as (x & t3 & t4 & Hx & H & ->).
  apply lift_inv in Hx as [_ ->].
  destruct (create_pair_hr_lr x (scale a) (topography a) (landocean a)
              (patch_size a) (model a) (interpolation a)) as [hr_array lr_array].
  apply bind_Ok_inv in H as (g & t5 & t6 & Hg & H & ->).
  apply lift_inv in Hg as [_ ->].
  apply bind_Ok_inv in H as ([st ls] & t7 & t8 & Hstep & H & ->).
  injection H as <- <-.
  match type of Hstep with
  | train_step ?lr ?hr ?st0 ?ep = _ =>
      destruct (train_step_completes lr hr st0 ep) as (st' & Hdone)
  end.
  rewrite Hdone in Hstep. injection Hstep as _ _ <-.
  cbn [gentotal gengan genl1 disc]. repeat split.
  unfold summary_steps in *. rewrite !flat_map_app, Hdots.
  destruct (forward_losses _ _ _ _) as [[[gt gg] gl] dl]. reflexivity.
Qed.

Lemma summary_steps_app (t1 t2 : list event) :
  summary_steps (t1 ++ t2) = summary_steps t1 ++ summary_steps t2.
Proof. apply flat_map_app. Qed.

Lemma summary_steps_of_saves (tr : list event) :
  Forall (fun ev => is_checkpoint_save ev = true) tr -> summary_steps tr = [].
Proof.
  induction 1 as [|ev tr Hev _ IH]; [reflexivity|].
  destruct ev; try discriminate Hev. exact IH.
Qed.

(** What a completed epoch has done: each loss history has one more entry,
    and forty summaries were recorded under the epoch. *)
Lemma train_one_epoch_Ok_inv a checkpoint epoch s s' tr :
  train_one_epoch a checkpoint epoch s = (Ok s', tr) ->
  List.length (gentotal s') = S (List.length (gentotal s))
  /\ List.length (gengan s') = S (List.length (gengan s))
  /\ List.length (genl1 s') = S (List.length (genl1 s))
  /\ List.length (disc s') = S (List.length (disc s))
  /\ summary_steps tr = forty epoch.
Proof.
  unfold train_one_epoch. intros H.
  apply bind_Ok_inv in H as (u1 & t1 & t2 & H1 & H & ->).
  apply emit_inv in H1 as ->. cbv zeta in H.
  apply bind_Ok_inv in H as (s1 & t3 & t4 & Hloop & H & ->).
  apply bind_Ok_inv in H as (u2 & t5 & t6 & H2 & H & ->).
  apply emit_inv in H2 as ->.
  apply bind_Ok_inv in H as ([[[gt gg] gl] dl] & t7 & t8 & Hls & H & ->).
  apply lift_inv in Hls as [_ ->].
  apply bind_Ok_inv in H as (u3 & t9 & t10 & H3 & H & ->).
  apply emit_inv in H3 as ->.
  apply bind_Ok_inv in H as (u4 & t11 & t12 & Hck & H & ->).
  apply bind_Ok_inv in H as (u5 & t13 & t14 & H5 & H & ->).
  apply emit_inv in H5 as ->. injection H as <- <-.
  cbn [gentotal gengan genl1 disc].
  rewrite !length_app. cbn [List.length].
  rewrite (for_each_Ok_preserved gentotal _ _
             (fun i u u' t _ Hi => proj1 (train_one_sample_Ok_inv a epoch i u u' t Hi))
             _ _ _ Hloop).
  rewrite (for_each_Ok_preserved gengan _ _
             (fun i u u' t _ Hi =>
                proj1 (proj2 (train_one_sample_Ok_inv a epoch i u u' t Hi)))
             _ _ _ Hloop).
  rewrite (for_each_Ok_preserved genl1 _ _
             (fun i u u' t _ Hi =>
                proj1 (proj2 (proj2 (train_one_sample_Ok_inv a epoch i u u' t Hi))))
             _ _ _ Hloop).
  rewrite (for_each_Ok_preserved disc _ _
             (fun i u u' t _ Hi =>
                proj1 (proj2 (proj2 (proj2 (train_one_sample_Ok_inv a epoch i u u' t Hi)))))
             _ _ _ Hloop).
  repeat split; try lia.
  rewrite !summary_steps_app.
  assert (summary_steps t3
          = flat_map (fun _ => [epoch; epoch; epoch; epoch]) (range 10)) as ->.
  { apply (for_each_Ok_flat_map _ (fun _ => [epoch; epoch; epoch; epoch]) _ _
             (fun i u u' t _ Hi =>
                proj2 (proj2 (proj2 (proj2 (train_one_sample_Ok_inv a epoch i u u' t Hi)))))
             _ _ _ Hloop). }
  assert (summary_steps t11 = []) as ->.
  { apply summary_steps_of_saves.
    change t11 with (effects (Ok u4, t11)). rewrite <- Hck.
    destruct (checkpoints_frequency a) as [f|]; [|constructor].
    apply effects_bind_Forall; [apply effects_lift_Forall|].
    intros r _. destruct (r =? 0); [|constructor].
    unfold checkpoint_save.
    apply effects_bind_Forall; [apply effects_lift_Forall|]. intros p _.
    apply effects_bind_Forall; [apply effects_lift_Forall|]. intros g _.
    now apply effects_emit_Forall. }
  reflexivity.
Qed.

(** The shape of a completed run: the file writer, the effects of the loop
    over the epochs, the final checkpoint of the state the loop has left, the
    loss histories, the run time; the generator returned is the one of that
    state. *)
Lemma training_cgan_completed_run a f :
  (10 <= List.length (x_train a))%nat ->
  model a = "rspc" \/ model a = "rint" ->
  checkpoints_frequency a = Some f ->
  f <> 0 ->
  exists ck s0 s' g tr p,
    gentotal s0 = [] /\ gengan s0 = [] /\ genl1 s0 = [] /\ disc s0 = []
    /\ for_each (range (epochs a)) (train_one_epoch a ck) s0 = (Ok s', tr)
    /\ l_generator s' = Some g
    /\ training_cgan a
       = (Ok g,
          CreateFileWriter "cgan_logs/fit/" ::
          tr ++ [CheckpointSave p
                   {| generator := g;
                      discriminator := l_discriminator s';
                      generator_optimizer := l_generator_optimizer s';
                      discriminator_optimizer := l_discriminator_optimizer s' |};
                 NpSave "./losses.npy" (gentotal s') (gengan s') (genl1 s') (disc s');
                 TimingRuntime]).
Proof.
  intros Hlen Hmodel Hf Hnz. unfold training_cgan. rewrite Hf.
  assign_generator Hmodel g0 Hg0. run_monad.
  match goal with
  | |- context [for_each _ (train_one_epoch a ?ck) ?s0] =>
      destruct (epoch_loop_completes a ck (Z.to_nat (epochs a)) 0 s0 Hlen)
        as (s' & tr & Hloop & [g' Hg'] & _ & _);
      [now exists g0
      |intros f' Hf'; rewrite Hf in Hf'; injection Hf' as <-;
       split; [exact Hnz|now eexists]
      |exists ck, s0, s', g', tr]
  end.
  fold (range (epochs a)) in Hloop. rewrite Hloop. run_monad.
  unfold checkpoint_save. rewrite Hg'. run_monad.
  eexists. repeat split; try reflexivity; assumption.
Qed.

(** X17.  The loss history written at the end of a completed run has exactly one
    entry per epoch in each of its four rows. *)
Theorem loss_history_has_one_entry_per_epoch a f :
  (10 <= List.length (x_train a))%nat ->
  model a = "rspc" \/ model a = "rint" ->
  checkpoints_frequency a = Some f ->
  f <> 0 ->
  exists total gan l1 d,
    saved_histories (effects (training_cgan a)) = [(total, gan, l1, d)]
    /\ List.length total = Z.to_nat (epochs a)
    /\ List.length gan = Z.to_nat (epochs a)
    /\ List.length l1 = Z.to_nat (epochs a)
    /\ List.length d = Z.to_nat (epochs a).
Proof.
  intros Hlen Hmodel Hf Hnz.
  destruct (training_cgan_completed_run a f Hlen Hmodel Hf Hnz)
    as (ck & s0 & s' & g & tr & p & H1 & H2 & H3 & H4 & Hloop & _ & ->).
  exists (gentotal s'), (gengan s'), (genl1 s'), (disc s').
  split.
  - cbn [effects snd]. unfold saved_histories. cbn [flat_map app].
    rewrite flat_map_app. cbn [flat_map app].
    assert (Forall (fun ev => forall q x y z w, ev <> NpSave q x y z w) tr) as Hnone.
    { change tr with (effects (Ok s', tr)). rewrite <- Hloop.
      apply for_each_effects_Forall. intros epoch s _.
      apply train_one_epoch_effects; intros; discriminate. }
    match goal with |- ?l ++ _ = _ => assert (l = []) as -> end; [|reflexivity].
    clear - Hnone. induction Hnone as [|ev tr Hev _ IH]; [reflexivity|].
    cbn [flat_map]. rewrite IH.
    destruct ev; try reflexivity.
    exfalso. eapply Hev. reflexivity.
  - pose proof (for_each_Ok_count (fun s => List.length (gentotal s)) _ _
                  (fun e u u' t _ He =>
                     proj1 (train_one_epoch_Ok_inv a ck e u u' t He))
                  _ _ _ Hloop) as Ht.
    pose proof (for_each_Ok_count (fun s => List.length (gengan s)) _ _
                  (fun e u u' t _ He =>
                     proj1 (proj2 (train_one_epoch_Ok_inv a ck e u u' t He)))
                  _ _ _ Hloop) as Hg.
    pose proof (for_each_Ok_count (fun s => List.length (genl1 s)) _ _
                  (fun e u u' t _ He =>
                     proj1 (proj2 (proj2 (train_one_epoch_Ok_inv a ck e u u' t He))))
                  _ _ _ Hloop) as Hl.
    pose proof (for_each_Ok_count (fun s => List.length (disc s)) _ _
                  (fun e u u' t _ He =>
                     proj1 (proj2 (proj2 (proj2
                       (train_one_epoch_Ok_inv a ck e u u' t He)))))
                  _ _ _ Hloop) as Hd.
    cbv beta in Ht, Hg, Hl, Hd.
    rewrite H1 in Ht. rewrite H2 in Hg. rewrite H3 in Hl. rewrite H4 in Hd.
    unfold range in Ht, Hg, Hl, Hd.
    rewrite length_map, length_seq in Ht, Hg, Hl, Hd.
    cbn [List.length Nat.add] in Ht, Hg, Hl, Hd. now repeat split.
Qed.

(** X18.  The generator that a completed run returns is the one written by its
    last checkpoint. *)
Theorem returned_generator_is_in_last_checkpoint a f :
  (10 <= List.length (x_train a))%nat ->
  model a = "rspc" \/ model a = "rint" ->
  checkpoints_frequency a = Some f ->
  f <> 0 ->
  exists g earlier st,
    outcome (training_cgan a) = Ok g
    /\ saved_states (effects (training_cgan a)) = earlier ++ [st]
    /\ generator st = g.
Proof.
  intros Hlen Hmodel Hf Hnz.
  destruct (training_cgan_completed_run a f Hlen Hmodel Hf Hnz)
    as (ck & s0 & s' & g & tr & p & _ & _ & _ & _ & _ & _ & ->).
  exists g, (saved_states tr). eexists. split; [reflexivity|].
  split.
  - cbn [effects snd]. unfold saved_states. cbn [flat_map app].
    rewrite flat_map_app. reflexivity.
  - reflexivity.
Qed.

(** X19.  Every summary of a completed run is recorded under the index of its
    epoch: forty under each epoch, the ten steps of an epoch sharing one
    step index. *)
Theorem summaries_are_keyed_by_epoch a f :
  (10 <= List.length (x_train a))%nat ->
  model a = "rspc" \/ model a = "rint" ->
  checkpoints_frequency a = Some f ->
  f <> 0 ->
  summary_steps (effects (training_cgan a)) = flat_map forty (range (epochs a)).
Proof.
  intros Hlen Hmodel Hf Hnz.
  destruct (training_cgan_completed_run a f Hlen Hmodel Hf Hnz)
    as (ck & s0 & s' & g & tr & p & _ & _ & _ & _ & Hloop & _ & ->).
  cbn [effects snd].
  match goal with
  | |- summary_steps (?ev :: tr ++ ?rest) = _ =>
      change (ev :: tr ++ rest) with ([ev] ++ tr ++ rest)
  end.
  rewrite !summary_steps_app. cbn [summary_steps flat_map app].
  rewrite app_nil_r. fold (summary_steps tr).
  apply (for_each_Ok_flat_map _ forty _ _
           (fun e u u' t _ He =>
              proj2 (proj2 (proj2 (proj2 (train_one_epoch_Ok_inv a ck e u u' t He)))))
           _ _ _ Hloop).
Qed.

End CompletedRuns.


(** A cadence of 3 over 6 epochs, and the same with the cadence negated: the
    state after epoch 6 is written twice. *)
Lemma checkpoints_when_cadence_divides_epochs :
  Cgan.saves_after
    (effects (Cgan.training_cgan (Cgan.example_cgan_args (Some 3) 6 "rint")))
  = [3; 6; 6]
  /\ Cgan.saves_after
       (effects (Cgan.training_cgan (Cgan.example_cgan_args (Some (-3)) 6 "rint")))
     = [3; 6; 6].
Proof. vm_compute. split; reflexivity. Qed.

(** Three epochs with a cadence of zero. *)
Lemma zero_cadence_divides_by_zero_example :
  outcome (Cgan.training_cgan (Cgan.example_cgan_args (Some 0) 3 "rspc"))
  = Raise ZeroDivisionError
  /\ Cgan.saves_after
       (effects (Cgan.training_cgan (Cgan.example_cgan_args (Some 0) 3 "rspc"))) = []
  /\ Cgan.train_step_calls
       (effects (Cgan.training_cgan (Cgan.example_cgan_args (Some 0) 3 "rspc")))
     = Cgan.calls_on_first_ten (Cgan.example_cgan_args (Some 0) 3 "rspc") 0.
Proof.
  apply (zero_cadence_divides_by_zero (F := Cgan.example_framework)
           (Cgan.example_cgan_args (Some 0) 3 "rspc")).
  - cbn. lia.
  - left. reflexivity.
  - reflexivity.
  - cbn. lia.
Defined.

(** A model name that is neither ['rspc'] nor ['rint']. *)
Lemma unknown_model_never_trains_example :
  (exists err,
      outcome (Cgan.training_cgan (Cgan.example_cgan_args None 2 "resnet_spc"))
      = Raise err)
  /\ Cgan.train_step_calls
       (effects (Cgan.training_cgan (Cgan.example_cgan_args None 2 "resnet_spc"))) = []
  /\ Cgan.saves_after
       (effects (Cgan.training_cgan (Cgan.example_cgan_args None 2 "resnet_spc"))) = [].
Proof.
  apply (unknown_model_never_trains (F := Cgan.example_framework)
           (Cgan.example_cgan_args None 2 "resnet_spc")).
  - discriminate.
  - discriminate.
Defined.

(** Three samples: three training steps, then [IndexError]. *)
Lemma fewer_than_ten_samples_raise_example :
  outcome (Cgan.training_cgan (Cgan.example_cgan_args_short (Some 5) 2))
  = Raise IndexError
  /\ Cgan.train_step_calls
       (effects (Cgan.training_cgan (Cgan.example_cgan_args_short (Some 5) 2)))
     = map (Cgan.call_on (Cgan.example_cgan_args_short (Some 5) 2) 0)
           (Cgan.x_train (Cgan.example_cgan_args_short (Some 5) 2))
  /\ Cgan.saves_after
       (effects (Cgan.training_cgan (Cgan.example_cgan_args_short (Some 5) 2))) = [].
Proof.
  apply (fewer_than_ten_samples_raise (F := Cgan.example_framework)
           (Cgan.example_cgan_args_short (Some 5) 2)).
  - cbn. lia.
  - right. reflexivity.
  - cbn. lia.
Defined.

(** Twelve epochs: four rows of twelve losses. *)
Lemma loss_history_has_one_entry_per_epoch_example :
  exists total gan l1 d,
    Cgan.saved_histories
      (effects (Cgan.training_cgan (Cgan.example_cgan_args (Some 5) 12 "rspc")))
    = [(total, gan, l1, d)]
    /\ List.length total = 12%nat
    /\ List.length gan = 12%nat
    /\ List.length l1 = 12%nat
    /\ List.length d = 12%nat.
Proof.
  apply (loss_history_has_one_entry_per_epoch (F := Cgan.example_framework)
           (Cgan.example_cgan_args (Some 5) 12 "rspc") 5).
  - cbn. lia.
  - left. reflexivity.
  - reflexivity.
  - discriminate.
Defined.

Lemma returned_generator_is_in_last_checkpoint_example :
  exists g earlier st,
    outcome (Cgan.training_cgan (Cgan.example_cgan_args (Some 5) 12 "rspc")) = Ok g
    /\ Cgan.saved_states
         (effects (Cgan.training_cgan (Cgan.example_cgan_args (Some 5) 12 "rspc")))
       = earlier ++ [st]
    /\ Cgan.generator st = g.
Proof.
  apply (returned_generator_is_in_last_checkpoint (F := Cgan.example_framework)
           (Cgan.example_cgan_args (Some 5) 12 "rspc") 5).
  - cbn. lia.
  - left. reflexivity.
  - reflexivity.
  - discriminate.
Defined.

(** Two epochs: forty summaries under step 0, then forty under step 1. *)
Lemma summaries_are_keyed_by_epoch_example :
  Cgan.summary_steps
    (effects (Cgan.training_cgan (Cgan.example_cgan_args (Some 5) 2 "rspc")))
  = repeat 0 40 ++ repeat 1 40.
Proof.
  rewrite (summaries_are_keyed_by_epoch (F := Cgan.example_framework)
             (Cgan.example_cgan_args (Some 5) 2 "rspc") 5).
  - reflexivity.
  - cbn. lia.
  - left. reflexivity.
  - reflexivity.
  - discriminate.
Defined.
